(** * Brave Search MCP server: rate-limited client, orchestration, dispatch

    A shallow embedding of [apiClient.ts], [tools.ts] and [index.ts]:
    the per-endpoint rate limiter, the four upstream client functions, the
    orchestration functions built on them and the [call_tool] handler.

    Conventions of the embedding.
    - A JavaScript string is a [string]; its characters stand for the code
      units of the source string.
    - A JavaScript number is a [JsNum]: [NaN], the two infinities, or a
      finite value.  Finite values are integers, the values counts, offsets,
      timestamps and HTTP statuses take; they are meant in the safe range
      (below 2^53 in absolute value), where the arithmetic of the source
      is exact and [toString] prints decimal digits.
    - [async] functions are sequential computations in the monad [M]: a
      function from the state of the process ([World]) to an outcome (a
      value or a thrown error) and the next state.  [await] is [bind].
    - [console] output is not part of the model; the branches on
      [LOG_LEVEL === 'debug'] only print. *)

From Stdlib Require Import ZArith Ascii String List Bool Lia.
From stdpp Require Import base option strings pretty gmap.
Import ListNotations.

Local Open Scope string_scope.
Local Open Scope Z_scope.

(** ** Strings *)

Module Str.

(** The one-character string holding a double quote. *)
Definition dquote : string := String (ascii_of_nat 34) EmptyString.

Definition newline : string := String (ascii_of_nat 10) EmptyString.

(** A string is truthy when it is not empty. *)
Definition truthy (s : string) : bool :=
  match s with
  | EmptyString => false
  | String _ _ => true
  end.

(** [s || d] on strings. *)
Definition or_else (s d : string) : string := if truthy s then s else d.

(** [hay.includes(needle)]. *)
Fixpoint includes (needle hay : string) : bool :=
  String.prefix needle hay
  || match hay with
     | EmptyString => false
     | String _ rest => includes needle rest
     end.

(** [s.split(sep)] for a one-character separator: never an empty list. *)
Fixpoint split (sep : ascii) (s : string) : list string :=
  match s with
  | EmptyString => [EmptyString]
  | String c rest =>
      if Ascii.eqb c sep then EmptyString :: split sep rest
      else match split sep rest with
           | [] => [String c EmptyString]
           | w :: ws => String c w :: ws
           end
  end.

(** [parts.join(sep)]. *)
Fixpoint join (sep : string) (parts : list string) : string :=
  match parts with
  | [] => EmptyString
  | [p] => p
  | p :: ps => p ++ sep ++ join sep ps
  end.

(** [xs.slice(-n)]: the last [n] elements, all of them when there are fewer. *)
Definition slice_last {A} (n : nat) (xs : list A) : list A :=
  skipn (length xs - n)%nat xs.

End Str.

(** [xs.map(f).filter(defined)]: the values [f] gives, where it gives one. *)
Fixpoint filter_map {A B} (f : A -> option B) (xs : list A) : list B :=
  match xs with
  | [] => []
  | x :: rest =>
      match f x with
      | Some y => y :: filter_map f rest
      | None => filter_map f rest
      end
  end.

(** ** Numbers *)

Inductive JsNum : Type :=
| NaN
| PosInf
| NegInf
| Fin (z : Z).

Module Num.

Definition isNaN (x : JsNum) : bool :=
  match x with NaN => true | _ => false end.

(** [Number.isFinite]: what the word finite means for a number. *)
Definition isFinite (x : JsNum) : bool :=
  match x with Fin _ => true | _ => false end.

(** [Math.min(x, y)]. *)
Definition min (x y : JsNum) : JsNum :=
  match x, y with
  | NaN, _ | _, NaN => NaN
  | NegInf, _ | _, NegInf => NegInf
  | PosInf, o | o, PosInf => o
  | Fin a, Fin b => Fin (Z.min a b)
  end.

(** [Math.max(x, y)]. *)
Definition max (x y : JsNum) : JsNum :=
  match x, y with
  | NaN, _ | _, NaN => NaN
  | PosInf, _ | _, PosInf => PosInf
  | NegInf, o | o, NegInf => o
  | Fin a, Fin b => Fin (Z.max a b)
  end.

(** Decimal digits of an integer, with a minus sign when negative. *)
Definition decimal (z : Z) : string := pretty z.

(** [x.toString()]. *)
Definition toString (x : JsNum) : string :=
  match x with
  | NaN => "NaN"
  | PosInf => "Infinity"
  | NegInf => "-Infinity"
  | Fin z => decimal z
  end.

End Num.

(** ** URLs

    [new URL(text)] followed by calls on [url.searchParams].  The query
    string is kept as the list of its (name, value) pairs, in order. *)

Record URL : Type := mkURL {
  origin : string;
  pathname : string;
  searchParams : list (string * string)
}.

Module SearchParams.

Definition t : Type := list (string * string).

(** [params.get(name)]: the first value under [name], [null] when none. *)
Fixpoint get (name : string) (ps : t) : option string :=
  match ps with
  | [] => None
  | (n, v) :: rest => if String.eqb n name then Some v else get name rest
  end.

Definition has (name : string) (ps : t) : bool :=
  match get name ps with Some _ => true | None => false end.

(** [params.getAll(name)]. *)
Definition getAll (name : string) (ps : t) : list string :=
  map snd (filter (fun p => String.eqb (fst p) name) ps).

Definition remove (name : string) (ps : t) : t :=
  filter (fun p => negb (String.eqb (fst p) name)) ps.

(** [params.set(name, value)]: the first pair under [name] takes the
    value and the others are dropped; a new pair is appended when there
    is none. *)
Fixpoint set (name value : string) (ps : t) : t :=
  match ps with
  | [] => [(name, value)]
  | (n, v) :: rest =>
      if String.eqb n name then (name, value) :: remove name rest
      else (n, v) :: set name value rest
  end.

(** [params.append(name, value)]. *)
Definition append (name value : string) (ps : t) : t :=
  (ps ++ [(name, value)])%list.

End SearchParams.

Definition url_set (name value : string) (u : URL) : URL :=
  mkURL (origin u) (pathname u) (SearchParams.set name value (searchParams u)).

Definition url_append (name value : string) (u : URL) : URL :=
  mkURL (origin u) (pathname u) (SearchParams.append name value (searchParams u)).

Definition api_origin : string := "https://api.search.brave.com".

(** [new URL('https://api.search.brave.com' + path)]: no query yet. *)
Definition new_URL (path : string) : URL := mkURL api_origin path [].

(** ** Thrown values

    [BraveApiError] is the class of [apiClient.ts]; every other thrown value
    is foreign to it: an [Error] with its message, or a value that is not an
    [Error], kept as [String(value)]. *)

Inductive Foreign : Type :=
| ErrorObject (message : string)
| OtherValue (asString : string).

Inductive Thrown : Type :=
| BraveApiError (message : string) (status : option Z) (details : option string)
| NotApi (f : Foreign).

(** [new Error(message)]. *)
Definition new_Error (message : string) : Thrown := NotApi (ErrorObject message).

(** [error instanceof Error ? error.message : String(error)]. *)
Definition describe (f : Foreign) : string :=
  match f with
  | ErrorObject m => m
  | OtherValue s => s
  end.

Inductive Outcome (E A : Type) : Type :=
| Return (a : A)
| Throw (e : E).

Arguments Return {E A} a.
Arguments Throw {E A} e.

(** ** Response bodies, as the interfaces of [apiClient.ts] declare them *)

Record WebResult : Type := mkWebResult {
  wr_title : string;
  wr_description : string;
  wr_url : string;
  wr_language : option string;
  wr_published : option string;
  wr_rank : option JsNum
}.

(** An entry of [locations.results]; [loc_id] is [None] for a [null] or
    missing id, which [performLocalSearch] filters out. *)
Record LocationRef : Type := mkLocationRef {
  loc_id : option string;
  loc_title : option string
}.

Record BraveWeb : Type := mkBraveWeb {
  web : option (option (list WebResult));
  locations : option (option (list LocationRef))
}.

Record Address : Type := mkAddress {
  streetAddress : option string;
  addressLocality : option string;
  addressRegion : option string;
  postalCode : option string
}.

Record Rating : Type := mkRating {
  ratingValue : option JsNum;
  ratingCount : option JsNum
}.

Record BraveLocation : Type := mkBraveLocation {
  poi_id : string;
  poi_name : string;
  poi_address : Address;
  poi_coordinates : option (JsNum * JsNum);
  poi_phone : option string;
  poi_rating : option Rating;
  poi_openingHours : option (list string);
  poi_priceRange : option string
}.

Record BravePoiResponse : Type := mkBravePoiResponse {
  results : list BraveLocation
}.

(** [descriptions] is an object used as a map; its pairs are kept in the
    order [Object.entries] lists them. *)
Record BraveDescription : Type := mkBraveDescription {
  descriptions : list (string * string)
}.

(** The type argument [T] of [callBraveApi<T>]. *)
Inductive Shape : Type := AsBraveWeb | AsBravePoiResponse | AsBraveDescription.

Definition Body (T : Shape) : Type :=
  match T with
  | AsBraveWeb => BraveWeb
  | AsBravePoiResponse => BravePoiResponse
  | AsBraveDescription => BraveDescription
  end.

(** What [fetch] resolves to.  [ok] is derived from the status as the Fetch
    standard defines it; [text] and [json] are what reading the body gives,
    a value or a foreign failure; [json T] is the parsed body seen as a [T]
    ([await response.json() as T] checks nothing). *)
Record Response : Type := mkResponse {
  status : Z;
  statusText : string;
  text : Outcome Foreign string;
  json : forall T : Shape, Outcome Foreign (Body T)
}.

Definition ok (r : Response) : bool := (200 <=? status r) && (status r <=? 299).

(** ** The state of the process *)

Record Tracker : Type := mkTracker {
  lastCallTime : Z;
  callCount : Z
}.

(** An untyped JavaScript value: what [call_tool] receives as arguments,
    and what a caller may pass where a number is declared. *)
#[warnings="-register-all"]
Inductive JsValue : Type :=
| VUndefined
| VNull
| VBool (b : bool)
| VNum (n : JsNum)
| VStr (s : string)
| VArr (items : list JsValue)
| VObj (fields : list (string * JsValue)).

(** A call of one of the four exported client functions, with its
    arguments: what a Jest mock of the function reports. *)
Inductive ClientCall : Type :=
| CallWebSearch (query : string) (count offset : JsValue)
| CallInitialLocalSearch (query : string) (count : JsNum)
| CallPoiDetails (ids : list (option string))
| CallPoiDescriptions (ids : list (option string)).

(** - [endpointTrackers]: the module-level [Map] of the rate limiter;
    - [ticks]: how many times [Date.now()] has been read;
    - [requests]: the URLs [fetch] has been called with, oldest first;
    - [calls]: a ghost record of the client functions entered, oldest
      first; nothing reads it. *)
Record World : Type := mkWorld {
  endpointTrackers : gmap string Tracker;
  ticks : nat;
  requests : list URL;
  calls : list ClientCall
}.

Definition M (A : Type) : Type := World -> Outcome Thrown A * World.

Definition ret {A} (a : A) : M A := fun w => (Return a, w).

Definition throw {A} (e : Thrown) : M A := fun w => (Throw e, w).

Definition bind {A B} (m : M A) (k : A -> M B) : M B :=
  fun w =>
    match m w with
    | (Return a, w') => k a w'
    | (Throw e, w') => (Throw e, w')
    end.

(** [try { body } catch (error) { handler }]. *)
Definition try_catch {A} (body : M A) (handler : Thrown -> M A) : M A :=
  fun w =>
    match body w with
    | (Return a, w') => (Return a, w')
    | (Throw e, w') => handler e w'
    end.

Notation "x <- m ;; k" := (bind m (fun x => k))
  (at level 20, m at level 99, k at level 200).
Notation "'run' m ;; k" := (bind m (fun _ => k))
  (at level 20, m at level 99, k at level 200).

(** ** State operations *)

Definition get_trackers : M (gmap string Tracker) :=
  fun w => (Return (endpointTrackers w), w).

Definition put_trackers (m : gmap string Tracker) : M unit :=
  fun w => (Return tt, mkWorld m (ticks w) (requests w) (calls w)).

(** Entering a client function (ghost). *)
Definition entered (c : ClientCall) : M unit :=
  fun w =>
    (Return tt,
     mkWorld (endpointTrackers w) (ticks w) (requests w) (calls w ++ [c])%list).

(** A body read that may fail, inside the monad. *)
Definition reading {A} (o : Outcome Foreign A) : M A :=
  match o with
  | Return a => ret a
  | Throw f => throw (NotApi f)
  end.

(** ** apiClient.ts *)

Section ApiClient.

(** [process.env.NODE_ENV], [None] when unset. *)
Variable NODE_ENV : option string.

(** [clock k] is what the read number [k] of [Date.now()] returns. *)
Variable clock : nat -> Z.

(** [network k url] is how the call number [k] of [fetch] ends when it
    is made with [url]: a response, or a foreign failure. *)
Variable network : nat -> URL -> Outcome Foreign Response.

Definition Date_now : M Z :=
  fun w =>
    (Return (clock (ticks w)),
     mkWorld (endpointTrackers w) (S (ticks w)) (requests w) (calls w)).

(** [await fetch(url, { headers })]; the headers are constant. *)
Definition fetch (url : URL) : M Response :=
  fun w =>
    let w' := mkWorld (endpointTrackers w) (ticks w)
                      (requests w ++ [url])%list (calls w) in
    match network (length (requests w)) url with
    | Return r => (Return r, w')
    | Throw f => (Throw (NotApi f), w')
    end.

Definition is_test : bool :=
  match NODE_ENV with
  | Some v => String.eqb v "test"
  | None => false
  end.

Definition getEndpointFromUrl (url : URL) : string :=
  let pathSegments := Str.split "/" (pathname url) in
  Str.join "/" (Str.slice_last 2 pathSegments).

Definition rate_limit_error : Thrown :=
  BraveApiError "Rate limit exceeded: > 1/second" (Some 429) None.

(** The tracker is an object held by the map: the two assignments to its
    fields and the final [set] are one update of the entry.  The first
    branch of the second lookup stands for the non-null assertion on
    [endpointTrackers.get(endpoint)]; the initialisation above rules it
    out. *)
Definition checkRateLimit (endpoint : string) (url : URL) : M unit :=
  let query :=
    match SearchParams.get "q" (searchParams url) with
    | Some q => Str.or_else q ""
    | None => ""
    end in
  let isRateLimitTest := is_test && Str.includes "req" query in
  if is_test && negb isRateLimitTest then ret tt
  else
    trackers <- get_trackers ;;
    run (match trackers !! endpoint with
         | Some _ => ret tt
         | None => put_trackers (<[endpoint := mkTracker 0 0]> trackers)
         end) ;;
    trackers <- get_trackers ;;
    match trackers !! endpoint with
    | None => throw (new_Error "tracker is undefined")
    | Some tracker =>
        now <- Date_now ;;
        let timeSinceLastCall := now - lastCallTime tracker in
        if timeSinceLastCall <? 1000 then throw rate_limit_error
        else
          stamp <- Date_now ;;
          let tracker' := mkTracker stamp (callCount tracker + 1) in
          trackers <- get_trackers ;;
          put_trackers (<[endpoint := tracker']> trackers)
    end.

Definition callBraveApi (T : Shape) (url : URL) : M (Body T) :=
  let endpoint := getEndpointFromUrl url in
  run checkRateLimit endpoint url ;;
  try_catch
    (response <- fetch url ;;
     if negb (ok response) then
       errorText <- reading (text response) ;;
       throw (BraveApiError "API request failed" (Some (status response))
                (Some (statusText response ++ ": "
                       ++ String.substring 0 200 errorText ++ "...")))
     else
       data <- reading (json response T) ;;
       ret data)
    (fun error =>
       match error with
       | BraveApiError _ _ _ => throw error
       | NotApi f =>
           throw (BraveApiError
                    ("Network error calling Brave API: " ++ describe f)
                    None None)
       end).

(** [typeof v === 'number' && !isNaN(v)], with the number when it holds. *)
Definition valid_number (v : JsValue) : option JsNum :=
  match v with
  | VNum n => if Num.isNaN n then None else Some n
  | _ => None
  end.

Definition web_search_path : string := "/res/v1/web/search".

(** The URL [fetchWebSearch] builds before it calls [callBraveApi]. *)
Definition webSearchUrl (query : string) (count offset : JsValue) : URL :=
  let url := new_URL web_search_path in
  let url := url_set "q" query url in
  let url :=
    match valid_number count with
    | Some c => url_set "count" (Num.toString (Num.min c (Fin 20))) url
    | None => url
    end in
  let url :=
    match valid_number offset with
    | Some o =>
        url_set "offset"
          (Num.toString (Num.max (Fin 0) (Num.min o (Fin 9)))) url
    | None => url
    end in
  url_set "result_filter" "web" url.

Definition fetchWebSearch (query : string) (count offset : JsValue)
  : M BraveWeb :=
  run entered (CallWebSearch query count offset) ;;
  callBraveApi AsBraveWeb (webSearchUrl query count offset).

(** The URL [fetchInitialLocalSearch] builds. *)
Definition initialLocalSearchUrl (query : string) (count : JsNum) : URL :=
  let url := new_URL web_search_path in
  let url := url_set "q" query url in
  let url := url_set "search_lang" "en" url in
  let url := url_set "result_filter" "locations" url in
  url_set "count" (Num.toString (Num.min count (Fin 20))) url.

Definition fetchInitialLocalSearch (query : string) (count : JsNum)
  : M BraveWeb :=
  run entered (CallInitialLocalSearch query count) ;;
  callBraveApi AsBraveWeb (initialLocalSearchUrl query count).

(** [ids.filter(Boolean)]: [null], [undefined] and the empty string go. *)
Definition filter_Boolean (ids : list (option string)) : list string :=
  filter_map (fun id =>
          match id with
          | Some s => if Str.truthy s then Some s else None
          | None => None
          end) ids.

(** [ids.filter(Boolean).forEach(id => url.searchParams.append('ids', id))]. *)
Definition append_ids (ids : list (option string)) (url : URL) : URL :=
  fold_left (fun u id => url_append "ids" id u) (filter_Boolean ids) url.

Definition poiDetailsUrl (ids : list (option string)) : URL :=
  append_ids ids (new_URL "/res/v1/local/pois").

Definition poiDescriptionsUrl (ids : list (option string)) : URL :=
  append_ids ids (new_URL "/res/v1/local/descriptions").

Definition fetchPoiDetails (ids : list (option string))
  : M BravePoiResponse :=
  run entered (CallPoiDetails ids) ;;
  if (length ids =? 0)%nat then ret (mkBravePoiResponse [])
  else callBraveApi AsBravePoiResponse (poiDetailsUrl ids).

Definition fetchPoiDescriptions (ids : list (option string))
  : M BraveDescription :=
  run entered (CallPoiDescriptions ids) ;;
  if (length ids =? 0)%nat then ret (mkBraveDescription [])
  else callBraveApi AsBraveDescription (poiDescriptionsUrl ids).

End ApiClient.

(** ** tools.ts: the type guards *)

Module Tools.

Definition typeof (v : JsValue) : string :=
  match v with
  | VUndefined => "undefined"
  | VNull => "object"
  | VBool _ => "boolean"
  | VNum _ => "number"
  | VStr _ => "string"
  | VArr _ => "object"
  | VObj _ => "object"
  end.

Fixpoint lookup_field (key : string) (fields : list (string * JsValue))
  : option JsValue :=
  match fields with
  | [] => None
  | (k, v) :: rest => if String.eqb k key then Some v else lookup_field key rest
  end.

(** [key in v] for a [v] that is an object, and for the keys the guards
    ask about ([query], [ids]): own keys of a plain object; an array has
    neither. *)
Definition has_key (key : string) (v : JsValue) : bool :=
  match v with
  | VObj fields =>
      match lookup_field key fields with Some _ => true | None => false end
  | _ => false
  end.

(** [v.key] for the keys the guards read: [undefined] when absent. *)
Definition field (key : string) (v : JsValue) : JsValue :=
  match v with
  | VObj fields =>
      match lookup_field key fields with Some x => x | None => VUndefined end
  | _ => VUndefined
  end.

Definition is_null (v : JsValue) : bool :=
  match v with VNull => true | _ => false end.

Definition is_undefined (v : JsValue) : bool :=
  match v with VUndefined => true | _ => false end.

Definition isArray (v : JsValue) : bool :=
  match v with VArr _ => true | _ => false end.

Definition items_of (v : JsValue) : list JsValue :=
  match v with VArr items => items | _ => [] end.

Definition isBraveWebSearchArgs (args : JsValue) : bool :=
  String.eqb (typeof args) "object"
  && negb (is_null args)
  && has_key "query" args
  && String.eqb (typeof (field "query" args)) "string"
  && (is_undefined (field "count" args)
      || String.eqb (typeof (field "count" args)) "number")
  && (is_undefined (field "offset" args)
      || String.eqb (typeof (field "offset" args)) "number").

Definition isBraveLocalSearchArgs (args : JsValue) : bool :=
  String.eqb (typeof args) "object"
  && negb (is_null args)
  && has_key "query" args
  && String.eqb (typeof (field "query" args)) "string"
  && (is_undefined (field "count" args)
      || String.eqb (typeof (field "count" args)) "number").

Definition isBravePoiDetailsArgs (args : JsValue) : bool :=
  String.eqb (typeof args) "object"
  && negb (is_null args)
  && has_key "ids" args
  && isArray (field "ids" args)
  && forallb (fun id => String.eqb (typeof id) "string")
       (items_of (field "ids" args)).

Definition isBravePoiDescriptionsArgs (args : JsValue) : bool :=
  String.eqb (typeof args) "object"
  && negb (is_null args)
  && has_key "ids" args
  && isArray (field "ids" args)
  && forallb (fun id => String.eqb (typeof id) "string")
       (items_of (field "ids" args)).

(** Reading validated arguments: a string, a number with the default of
    the destructuring pattern ([count = 10]), an array of strings. *)
Definition string_of (v : JsValue) : string :=
  match v with VStr s => s | _ => "" end.

Definition number_or (d : JsNum) (v : JsValue) : JsNum :=
  match v with VNum n => n | _ => d end.

Definition strings_of (v : JsValue) : list string :=
  map string_of (items_of v).

End Tools.

(** ** index.ts: formatting *)

Definition opt_or (o : option string) (d : string) : string :=
  match o with
  | Some s => Str.or_else s d
  | None => d
  end.

Definition formatWebResults (data : BraveWeb) : string :=
  let found :=
    match web data with
    | Some (Some rs) => rs
    | _ => []
    end in
  let results :=
    map (fun result =>
           (Str.or_else (wr_title result) "N/A",
            Str.or_else (wr_description result) "N/A",
            Str.or_else (wr_url result) "N/A")) found in
  if (length results =? 0)%nat then "No web results found."
  else
    Str.join (Str.newline ++ Str.newline)
      (map (fun r =>
              match r with
              | (title, description, url) =>
                  "Title: " ++ title ++ Str.newline
                  ++ "Description: " ++ description ++ Str.newline
                  ++ "URL: " ++ url
              end) results).

(** [descData.descriptions[id]], own keys only. *)
Fixpoint description_of (id : string) (ds : list (string * string))
  : option string :=
  match ds with
  | [] => None
  | (k, v) :: rest => if String.eqb k id then Some v else description_of id rest
  end.

Definition formatPoi (descData : BraveDescription) (poi : BraveLocation)
  : string :=
  let parts :=
    [streetAddress (poi_address poi); addressLocality (poi_address poi);
     addressRegion (poi_address poi); postalCode (poi_address poi)] in
  let kept :=
    filter_map (fun p =>
            match p with
            | Some s => if Str.truthy s then Some s else None
            | None => None
            end) parts in
  let address := Str.or_else (Str.join ", " kept) "N/A" in
  let value :=
    match poi_rating poi with
    | Some r =>
        match ratingValue r with
        | Some v => Num.toString v
        | None => "N/A"
        end
    | None => "N/A"
    end in
  let count :=
    match poi_rating poi with
    | Some r =>
        match ratingCount r with
        | Some c => Num.toString c
        | None => "0"
        end
    | None => "0"
    end in
  let hours :=
    Str.or_else
      (Str.join ", "
         (match poi_openingHours poi with Some hs => hs | None => [] end))
      "N/A" in
  "Name: " ++ Str.or_else (poi_name poi) "N/A" ++ Str.newline
  ++ "Address: " ++ address ++ Str.newline
  ++ "Phone: " ++ opt_or (poi_phone poi) "N/A" ++ Str.newline
  ++ "Rating: " ++ value ++ " (" ++ count ++ " reviews)" ++ Str.newline
  ++ "Price Range: " ++ opt_or (poi_priceRange poi) "N/A" ++ Str.newline
  ++ "Hours: " ++ hours ++ Str.newline
  ++ "Description: "
  ++ opt_or (description_of (poi_id poi) (descriptions descData))
       "No description available."
  ++ Str.newline.

Definition formatLocalResults (poisData : BravePoiResponse)
  (descData : BraveDescription) : string :=
  let found := results poisData in
  if (length found =? 0)%nat then "No local results found."
  else
    Str.join (Str.newline ++ "---" ++ Str.newline)
      (map (formatPoi descData) found).

(** ** index.ts: orchestration and dispatch *)

(** The argument of the [call_tool] request, after the protocol layer has
    checked it against its schema: a tool name and untyped arguments
    ([VUndefined] when there are none). *)
Record Request : Type := mkRequest {
  name : string;
  arguments : JsValue
}.

Record TextContent : Type := mkTextContent {
  type : string;
  content_text : string
}.

Record ToolResponse : Type := mkToolResponse {
  content : list TextContent;
  isError : bool
}.

Section Server.

Variable NODE_ENV : option string.
Variable clock : nat -> Z.
Variable network : nat -> URL -> Outcome Foreign Response.

Local Abbreviation fetchWebSearch := (fetchWebSearch NODE_ENV clock network).
Local Abbreviation fetchInitialLocalSearch :=
  (fetchInitialLocalSearch NODE_ENV clock network).
Local Abbreviation fetchPoiDetails := (fetchPoiDetails NODE_ENV clock network).
Local Abbreviation fetchPoiDescriptions :=
  (fetchPoiDescriptions NODE_ENV clock network).

(** [performWebSearch(query, count = 10, offset = 0)]: [None] is an
    argument left out. *)
Definition performWebSearch (query : string) (count offset : option JsNum)
  : M string :=
  let count := default (Fin 10) count in
  let offset := default (Fin 0) offset in
  data <- fetchWebSearch query (VNum count) (VNum offset) ;;
  ret (formatWebResults data).

(** [webData.locations?.results?.map(r => r.id).filter(id => id != null) || []]. *)
Definition locationIds_of (webData : BraveWeb) : list string :=
  match locations webData with
  | Some (Some rs) => filter_map loc_id rs
  | _ => []
  end.

(** [performLocalSearch(query, count = 5)], entered with its count. *)
Definition performLocalSearch (query : string) (count : JsNum) : M string :=
  webData <- fetchInitialLocalSearch query count ;;
  let locationIds := locationIds_of webData in
  if (length locationIds =? 0)%nat then
    performWebSearch query (Some count) None
  else
    try_catch
      (poisData <- fetchPoiDetails (map Some locationIds) ;;
       descriptionsData <- fetchPoiDescriptions (map Some locationIds) ;;
       ret (formatLocalResults poisData descriptionsData))
      (fun error => performWebSearch query (Some count) None).

Definition performPoiDetails (ids : list string) : M string :=
  if (length ids =? 0)%nat then ret "No IDs provided to fetch details."
  else
    poisData <- fetchPoiDetails (map Some ids) ;;
    ret (formatLocalResults poisData (mkBraveDescription [])).

Definition performPoiDescriptions (ids : list string) : M string :=
  if (length ids =? 0)%nat then ret "No IDs provided to fetch descriptions."
  else
    descriptionsData <- fetchPoiDescriptions (map Some ids) ;;
    if (length (descriptions descriptionsData) =? 0)%nat then
      ret "No descriptions found for the provided IDs."
    else
      ret (Str.join (Str.newline ++ Str.newline)
             (map (fun entry =>
                     "ID: " ++ fst entry ++ Str.newline
                     ++ "Description: " ++ snd entry)
                (descriptions descriptionsData))).

Definition invalid_arguments (name expected : string) : Thrown :=
  new_Error ("Invalid arguments for tool " ++ Str.dquote ++ name
             ++ Str.dquote ++ ". Expected: " ++ expected).

(** The body of the [try] block of [callToolHandler]: the [switch]. *)
Definition dispatch (name : string) (args : JsValue) : M string :=
  if String.eqb name "brave_web_search" then
    if negb (Tools.isBraveWebSearchArgs args) then
      throw (invalid_arguments name
               "{ query: string, count?: number, offset?: number }")
    else
      let query := Tools.string_of (Tools.field "query" args) in
      let count := Tools.number_or (Fin 10) (Tools.field "count" args) in
      let offset := Tools.number_or (Fin 0) (Tools.field "offset" args) in
      performWebSearch query (Some count) (Some offset)
  else if String.eqb name "brave_local_search" then
    if negb (Tools.isBraveLocalSearchArgs args) then
      throw (invalid_arguments name "{ query: string, count?: number }")
    else
      let query := Tools.string_of (Tools.field "query" args) in
      let count := Tools.number_or (Fin 5) (Tools.field "count" args) in
      performLocalSearch query count
  else if String.eqb name "brave_poi_details" then
    if negb (Tools.isBravePoiDetailsArgs args) then
      throw (invalid_arguments name "{ ids: string[] }")
    else performPoiDetails (Tools.strings_of (Tools.field "ids" args))
  else if String.eqb name "brave_poi_descriptions" then
    if negb (Tools.isBravePoiDescriptionsArgs args) then
      throw (invalid_arguments name "{ ids: string[] }")
    else performPoiDescriptions (Tools.strings_of (Tools.field "ids" args))
  else throw (new_Error ("Unknown tool requested: " ++ name)).

(** The text the [catch] block of [callToolHandler] builds. *)
Definition errorMessage (error : Thrown) : string :=
  match error with
  | BraveApiError message status details =>
      "Brave API Error ("
      ++ match status with Some n => Num.decimal n | None => "N/A" end
      ++ "): " ++ message
      ++ match details with
         | Some d => if Str.truthy d then " - " ++ d else ""
         | None => ""
         end
  | NotApi f => "Internal Server Error: " ++ describe f
  end.

Definition text_response (text : string) (is_error : bool) : ToolResponse :=
  mkToolResponse [mkTextContent "text" text] is_error.

Definition callToolHandler (request : Request) : M ToolResponse :=
  let name := name request in
  let args := arguments request in
  try_catch
    (results <- dispatch name args ;;
     ret (text_response results false))
    (fun error => ret (text_response (errorMessage error) true)).

End Server.

(** ** apiClient.ts: the rest *)

(** [_resetRateLimiterForTest()]: [endpointTrackers.clear()]. *)
Definition _resetRateLimiterForTest : M unit := put_trackers ∅.

(** The URL [fetchImageSearch], [fetchVideoSearch] and [fetchNewsSearch]
    build, each for its own path, before the call of [callBraveApi<any>]:
    [q], then [count] and [offset] under the guards of [fetchWebSearch];
    no [result_filter]. *)
Definition extendedSearchUrl (path query : string) (count offset : JsValue)
  : URL :=
  let url := new_URL path in
  let url := url_set "q" query url in
  let url :=
    match valid_number count with
    | Some c => url_set "count" (Num.toString (Num.min c (Fin 20))) url
    | None => url
    end in
  match valid_number offset with
  | Some o =>
      url_set "offset" (Num.toString (Num.max (Fin 0) (Num.min o (Fin 9)))) url
  | None => url
  end.

Definition imageSearchUrl : string -> JsValue -> JsValue -> URL :=
  extendedSearchUrl "/res/v1/images/search".

Definition videoSearchUrl : string -> JsValue -> JsValue -> URL :=
  extendedSearchUrl "/res/v1/videos/search".

Definition newsSearchUrl : string -> JsValue -> JsValue -> URL :=
  extendedSearchUrl "/res/v1/news/search".

(** ** tools.ts: the tool definitions, and [listToolsHandler] of index.ts *)

(** One entry of [inputSchema.properties]. *)
Record PropertySchema : Type := mkPropertySchema {
  prop_type : string;
  prop_items_type : option string;
  prop_description : string;
  prop_default : option JsNum;
  prop_minimum : option JsNum;
  prop_maximum : option JsNum
}.

(** A [Tool]; the [type] of every [inputSchema] is [object]. *)
Record Tool : Type := mkTool {
  tool_name : string;
  tool_description : string;
  schema_properties : list (string * PropertySchema);
  schema_required : list string
}.

Definition WEB_SEARCH_TOOL : Tool :=
  mkTool "brave_web_search"
    ("Performs a web search using the Brave Search API, ideal for general queries, news, articles, and online content. "
     ++ "Use this for broad information gathering, recent events, or when you need diverse web sources. "
     ++ "Supports pagination, content filtering, and freshness controls. "
     ++ "Maximum 20 results per request, with offset for pagination. ")
    [("query",
      mkPropertySchema "string" None "Search query (max 400 chars, 50 words)"
        None None None);
     ("count",
      mkPropertySchema "number" None "Number of results (1-20, default 10)"
        (Some (Fin 10)) None None);
     ("offset",
      mkPropertySchema "number" None "Pagination offset (0-9, default 0)"
        (Some (Fin 0)) (Some (Fin 0)) (Some (Fin 9)))]
    ["query"].

Definition LOCAL_SEARCH_TOOL : Tool :=
  mkTool "brave_local_search"
    ("Searches for local businesses and places using Brave's Local Search API. "
     ++ "Best for queries related to physical locations, businesses, restaurants, services, etc. "
     ++ "Returns detailed information including:" ++ Str.newline
     ++ "- Business names and addresses" ++ Str.newline
     ++ "- Ratings and review counts" ++ Str.newline
     ++ "- Phone numbers and opening hours" ++ Str.newline
     ++ "Use this when the query implies 'near me' or mentions specific locations. "
     ++ "Automatically falls back to web search if no local results are found.")
    [("query",
      mkPropertySchema "string" None
        "Local search query (e.g. 'pizza near Central Park')" None None None);
     ("count",
      mkPropertySchema "number" None "Number of results (1-20, default 5)"
        (Some (Fin 5)) (Some (Fin 1)) (Some (Fin 20)))]
    ["query"].

Definition BRAVE_POI_DETAILS_TOOL : Tool :=
  mkTool "brave_poi_details"
    "Fetches detailed information for a list of Points of Interest (POIs) using their IDs."
    [("ids",
      mkPropertySchema "array" (Some "string")
        "An array of Brave Place IDs for which to fetch details."
        None None None)]
    ["ids"].

Definition BRAVE_POI_DESCRIPTIONS_TOOL : Tool :=
  mkTool "brave_poi_descriptions"
    "Fetches descriptions for a list of Points of Interest (POIs) using their IDs."
    [("ids",
      mkPropertySchema "array" (Some "string")
        "An array of Brave Place IDs for which to fetch descriptions."
        None None None)]
    ["ids"].

Definition ALL_TOOLS : list Tool :=
  [WEB_SEARCH_TOOL; LOCAL_SEARCH_TOOL; BRAVE_POI_DETAILS_TOOL;
   BRAVE_POI_DESCRIPTIONS_TOOL].

(** [listToolsHandler]: the [tools] of its answer. *)
Definition listToolsHandler : M (list Tool) := ret ALL_TOOLS.

(** * Properties *)

(** ** Vocabulary of the statements *)

(** The [q] parameter as [checkRateLimit] reads it. *)
Definition query_of (url : URL) : string :=
  match SearchParams.get "q" (searchParams url) with
  | Some q => Str.or_else q ""
  | None => ""
  end.

(** The test-mode bypass of [checkRateLimit]: [NODE_ENV] is [test] and the
    query does not contain [req]. *)
Definition bypassed (NODE_ENV : option string) (url : URL) : bool :=
  is_test NODE_ENV && negb (Str.includes "req" (query_of url)).

(** The tracker [checkRateLimit] works on: the stored one, or the one it
    creates for an endpoint it sees for the first time. *)
Definition tracker_of (endpoint : string) (w : World) : Tracker :=
  default (mkTracker 0 0) (endpointTrackers w !! endpoint).

(** The state after a rejected call: the tracker exists, one clock read. *)
Definition rejected (endpoint : string) (w : World) : World :=
  mkWorld (<[endpoint := tracker_of endpoint w]> (endpointTrackers w))
    (S (ticks w)) (requests w) (calls w).

(** The state after an accepted call: two clock reads, the second one
    stored, the count one higher. *)
Definition accepted (clock : nat -> Z) (endpoint : string) (w : World) : World :=
  mkWorld
    (<[endpoint := mkTracker (clock (S (ticks w)))
                     (callCount (tracker_of endpoint w) + 1)]>
       (endpointTrackers w))
    (S (S (ticks w))) (requests w) (calls w).

(** The sentence of the specification about [checkRateLimit], at one call. *)
Definition fails_exactly_when_early (NODE_ENV : option string)
  (clock : nat -> Z) (endpoint : string) (url : URL) (w : World) : Prop :=
  fst (checkRateLimit NODE_ENV clock endpoint url w) = Throw rate_limit_error
  <-> clock (ticks w) - lastCallTime (tracker_of endpoint w) < 1000.

(** The state after [fetch] has been called with [url]. *)
Definition sent (url : URL) (w : World) : World :=
  mkWorld (endpointTrackers w) (ticks w) (requests w ++ [url])%list (calls w).

Definition network_error (f : Foreign) : Thrown :=
  BraveApiError ("Network error calling Brave API: " ++ describe f) None None.

Definition http_error (r : Response) (errorText : string) : Thrown :=
  BraveApiError "API request failed" (Some (status r))
    (Some (statusText r ++ ": " ++ String.substring 0 200 errorText ++ "...")).

(** How the call number [k] of [fetch] ends for [callBraveApi<T>]. *)
Definition exchange (network : nat -> URL -> Outcome Foreign Response)
  (T : Shape) (url : URL) (k : nat) : Outcome Thrown (Body T) :=
  match network k url with
  | Throw f => Throw (network_error f)
  | Return r =>
      if ok r then
        match json r T with
        | Return data => Return data
        | Throw f => Throw (network_error f)
        end
      else
        match text r with
        | Return errorText => Throw (http_error r errorText)
        | Throw f => Throw (network_error f)
        end
  end.

(** ** Scenarios *)

(** A clock that returns the given readings in turn, then 0. *)
Definition clock_of (readings : list Z) : nat -> Z :=
  fun k => nth k readings 0.

(** A network on which every [fetch] fails. *)
Definition no_network : nat -> URL -> Outcome Foreign Response :=
  fun _ _ => Throw (ErrorObject "fetch failed").

(** A fresh process. *)
Definition fresh : World := mkWorld ∅ 0 [] [].

(** A process that called [web/search] once, at time 10000. *)
Definition called_at_10000 : World :=
  mkWorld {["web/search" := mkTracker 10000 1]} 0 [] [].

(** A URL with the given path and [q]. *)
Definition search_url (q : string) : URL :=
  url_set "q" q (new_URL "/res/v1/web/search").

(** The sentence of the specification about [count]: the parameter is in
    the URL only if a finite number was supplied. *)
Definition count_needs_finite (query : string) (count offset : JsValue) : Prop :=
  SearchParams.has "count" (searchParams (webSearchUrl query count offset)) = true ->
  exists z, count = VNum (Fin z).

(** The pair a number argument contributes to the query: none unless it is
    a number other than [NaN]. *)
Definition number_param (key : string) (clamp : JsNum -> JsNum) (v : JsValue)
  : list (string * string) :=
  match v with
  | VNum NaN => []
  | VNum n => [(key, Num.toString (clamp n))]
  | _ => []
  end.

(** The state after a client function has been entered (ghost). *)
Definition noted (c : ClientCall) (w : World) : World :=
  mkWorld (endpointTrackers w) (ticks w) (requests w) (calls w ++ [c])%list.

(** The URL of a POI lookup: one [ids] pair for each of [survivors]. *)
Definition ids_url (path : string) (survivors : list string) : URL :=
  mkURL api_origin path (map (fun id => ("ids", id)) survivors).

(** A response with status 401 and the body [Bad Key], which is not JSON. *)
Definition unauthorized : Response :=
  mkResponse 401 "Unauthorized" (Return "Bad Key")
    (fun _ => Throw (ErrorObject "Unexpected token B in JSON at position 0")).

Definition network_401 : nat -> URL -> Outcome Foreign Response :=
  fun _ _ => Return unauthorized.

(** The state of a fresh process once the limiter has accepted a call of
    [web/search] under the clock readings 10000 and 10001. *)
Definition first_accepted : World :=
  accepted (clock_of [10000; 10001]) "web/search" fresh.

(** The [try] block of [performLocalSearch]: details, then descriptions,
    then the formatted text. *)
Definition enrichment (NODE_ENV : option string) (clock : nat -> Z)
  (network : nat -> URL -> Outcome Foreign Response) (locationIds : list string)
  : M string :=
  poisData <- fetchPoiDetails NODE_ENV clock network (map Some locationIds) ;;
  descriptionsData <-
    fetchPoiDescriptions NODE_ENV clock network (map Some locationIds) ;;
  ret (formatLocalResults poisData descriptionsData).

(** [performLocalSearch] falls back to web search from the state [w2],
    having finished its initial search in the state [w1]: at once when
    there are no ids, after the enrichment has failed when there are. *)
Definition fallback_from (NODE_ENV : option string) (clock : nat -> Z)
  (network : nat -> URL -> Outcome Foreign Response) (locationIds : list string)
  (w1 w2 : World) : Prop :=
  (locationIds = [] /\ w2 = w1)
  \/ (locationIds <> []
      /\ exists e, enrichment NODE_ENV clock network locationIds w1 = (Throw e, w2)).

(** A 200 response whose body reads as the given values. *)
Definition json_response (asWeb : BraveWeb) (asPoi : BravePoiResponse)
  (asDesc : BraveDescription) : Response :=
  mkResponse 200 "OK" (Return "")
    (fun T =>
       match T return Outcome Foreign (Body T) with
       | AsBraveWeb => Return asWeb
       | AsBravePoiResponse => Return asPoi
       | AsBraveDescription => Return asDesc
       end).

Definition web_body (data : BraveWeb) : Response :=
  json_response data (mkBravePoiResponse []) (mkBraveDescription []).

Definition fallback_web : BraveWeb :=
  mkBraveWeb
    (Some (Some [mkWebResult "Fallback Web" "desc" "url" None None None]))
    None.

Definition no_locations : BraveWeb := mkBraveWeb None (Some (Some [])).

Definition one_location : BraveWeb :=
  mkBraveWeb None (Some (Some [mkLocationRef (Some "poi1") None])).

(** The location search finds nothing; the web search answers. *)
Definition network_no_locations : nat -> URL -> Outcome Foreign Response :=
  fun k _ =>
    match k with
    | O => Return (web_body no_locations)
    | _ => Return (web_body fallback_web)
    end.

(** The location search finds [poi1]; the details request fails; the web
    search answers. *)
Definition network_details_down : nat -> URL -> Outcome Foreign Response :=
  fun k _ =>
    match k with
    | O => Return (web_body one_location)
    | S O => Throw (ErrorObject "Network connection failed")
    | _ => Return (web_body fallback_web)
    end.

(** Readings that leave 1499 ms between the two calls of [web/search]. *)
Definition patient_clock : nat -> Z :=
  clock_of [10000; 10001; 10002; 10003; 11500; 11501].

(** Readings that leave 2 ms between the two calls of [web/search]. *)
Definition hasty_clock : nat -> Z := clock_of [10000; 10001; 10003; 10004].

(** The four tool names of the [switch] of [callToolHandler]. *)
Definition known_tool (name : string) : bool :=
  String.eqb name "brave_web_search"
  || String.eqb name "brave_local_search"
  || String.eqb name "brave_poi_details"
  || String.eqb name "brave_poi_descriptions".

(** The type guard of a tool, by name. *)
Definition valid_for (name : string) (args : JsValue) : bool :=
  if String.eqb name "brave_web_search" then Tools.isBraveWebSearchArgs args
  else if String.eqb name "brave_local_search" then
    Tools.isBraveLocalSearchArgs args
  else if String.eqb name "brave_poi_details" then
    Tools.isBravePoiDetailsArgs args
  else if String.eqb name "brave_poi_descriptions" then
    Tools.isBravePoiDescriptionsArgs args
  else false.

(** The shape the error text of a tool names. *)
Definition expected_shape (name : string) : string :=
  if String.eqb name "brave_web_search" then
    "{ query: string, count?: number, offset?: number }"
  else if String.eqb name "brave_local_search" then
    "{ query: string, count?: number }"
  else "{ ids: string[] }".

(** The text of a call rejected before any client function is entered. *)
Definition local_rejection (name : string) : string :=
  if known_tool name then
    "Invalid arguments for tool " ++ Str.dquote ++ name ++ Str.dquote
    ++ ". Expected: " ++ expected_shape name
  else "Unknown tool requested: " ++ name.

(** The response says that tool arguments are required, with either case
    of the first letter. *)
Definition mentions_arguments_required (response : ToolResponse) : bool :=
  existsb (fun c => Str.includes "ool arguments are required" (content_text c))
    (content response).

(** The sentence of the specification about a call without arguments. *)
Definition answers_arguments_required (NODE_ENV : option string)
  (clock : nat -> Z) (network : nat -> URL -> Outcome Foreign Response)
  (name : string) (w : World) : Prop :=
  exists response w',
    callToolHandler NODE_ENV clock network (mkRequest name VUndefined) w
    = (Return response, w')
    /\ isError response = true
    /\ mentions_arguments_required response = true.

(** A network that answers every request with status 200 and an empty
    object. *)
Definition network_empty_object : nat -> URL -> Outcome Foreign Response :=
  fun _ _ => Return (web_body (mkBraveWeb None None)).

(** Three web searches in a row, keeping how each one ended. *)
Definition three_searches (NODE_ENV : option string) (clock : nat -> Z)
  (network : nat -> URL -> Outcome Foreign Response)
  : M (list (Outcome Thrown BraveWeb)) :=
  let attempt query : M (Outcome Thrown BraveWeb) :=
    try_catch
      (data <- fetchWebSearch NODE_ENV clock network query (VNum (Fin 1))
                 (VNum (Fin 0)) ;;
       ret (Return data))
      (fun error => ret (Throw error)) in
  first <- attempt "req1" ;;
  second <- attempt "req2" ;;
  third <- attempt "req3" ;;
  ret [first; second; third].

(** A caller that makes the given checks in turn and notes, for each,
    whether it was permitted. *)
Fixpoint check_each (NODE_ENV : option string) (clock : nat -> Z)
  (checks : list (string * URL)) (w : World) : list bool * World :=
  match checks with
  | [] => ([], w)
  | (endpoint, url) :: rest =>
      match checkRateLimit NODE_ENV clock endpoint url w with
      | (outcome, w1) =>
          match check_each NODE_ENV clock rest w1 with
          | (permitted, w2) =>
              (match outcome with Return _ => true | Throw _ => false end
               :: permitted, w2)
          end
      end
  end.

(** How many of the checks on [endpoint] were permitted. *)
Fixpoint permitted_on (endpoint : string) (checks : list (string * URL))
  (permitted : list bool) : Z :=
  match checks, permitted with
  | (e, _) :: rest, p :: ps =>
      (if String.eqb e endpoint && p then 1 else 0) + permitted_on endpoint rest ps
  | _, _ => 0
  end.

(** A clock that never goes back. *)
Definition monotone (clock : nat -> Z) : Prop :=
  forall i j, (i <= j)%nat -> clock i <= clock j.

(** No [/] in the string. *)
Fixpoint slash_free (s : string) : bool :=
  match s with
  | EmptyString => true
  | String c rest => negb (Ascii.eqb c "/") && slash_free rest
  end.

(** The field is missing, [undefined], or a number. *)
Definition absent_or_number (key : string) (fields : list (string * JsValue))
  : bool :=
  match Tools.lookup_field key fields with
  | None => true
  | Some VUndefined => true
  | Some (VNum _) => true
  | Some _ => false
  end.

(** The limiter lets a call through: it is bypassed, or at least 1000 ms
    have passed since the stored time of the endpoint. *)
Definition permits (NODE_ENV : option string) (clock : nat -> Z)
  (endpoint : string) (url : URL) (w : World) : bool :=
  bypassed NODE_ENV url
  || (1000 <=? clock (ticks w) - lastCallTime (tracker_of endpoint w)).

(** The state the limiter leaves when it lets a call through. *)
Definition passed (NODE_ENV : option string) (clock : nat -> Z)
  (endpoint : string) (url : URL) (w : World) : World :=
  if bypassed NODE_ENV url then w else accepted clock endpoint w.

Definition poi_one : BraveLocation :=
  mkBraveLocation "poi1" "POI" (mkAddress None None None None) None None None
    None None.

(** The location search finds [poi1]; details and descriptions answer. *)
Definition network_local_ok : nat -> URL -> Outcome Foreign Response :=
  fun k _ =>
    match k with
    | O => Return (web_body one_location)
    | _ =>
        Return (json_response (mkBraveWeb None None)
                  (mkBravePoiResponse [poi_one])
                  (mkBraveDescription [("poi1", "Desc")]))
    end.

(** The web results of a body, as [formatWebResults] reads them. *)
Definition web_results_of (data : BraveWeb) : list WebResult :=
  match web data with
  | Some (Some rs) => rs
  | _ => []
  end.

(** The default a schema declares for a key. *)
Definition declared_default (tool : Tool) (key : string) : option JsNum :=
  match List.filter (fun p => String.eqb (fst p) key) (schema_properties tool) with
  | (_, schema) :: _ => prop_default schema
  | [] => None
  end.


(** The location search finds [poi1]; the details come back with no result
    and the descriptions with none. *)
Definition network_no_pois : nat -> URL -> Outcome Foreign Response :=
  fun k _ =>
    match k with
    | O => Return (web_body one_location)
    | _ =>
        Return (json_response (mkBraveWeb None None) (mkBravePoiResponse [])
                  (mkBraveDescription []))
    end.


(** A location result whose id is the empty string. *)
Definition nameless_location : BraveWeb :=
  mkBraveWeb None (Some (Some [mkLocationRef (Some "") None])).

(** The location search finds one result with an empty id; every later
    request is answered with web results. *)
Definition network_nameless : nat -> URL -> Outcome Foreign Response :=
  fun k _ =>
    match k with
    | O => Return (web_body nameless_location)
    | _ => Return (web_body fallback_web)
    end.

(** ** The rate limiter *)

Lemma checkRateLimit_bypassed NODE_ENV clock endpoint url w :
  bypassed NODE_ENV url = true ->
  checkRateLimit NODE_ENV clock endpoint url w = (Return tt, w).
Proof.
  unfold bypassed, query_of, checkRateLimit. intros H.
  apply andb_prop in H as [Ht Hq]. rewrite Ht. cbn [andb].
  apply negb_true_iff in Hq. rewrite Hq. reflexivity.
Qed.

Lemma checkRateLimit_eq NODE_ENV clock endpoint url w :
  bypassed NODE_ENV url = false ->
  checkRateLimit NODE_ENV clock endpoint url w =
  if clock (ticks w) - lastCallTime (tracker_of endpoint w) <? 1000
  then (Throw rate_limit_error, rejected endpoint w)
  else (Return tt, accepted clock endpoint w).
Proof.
  unfold bypassed, query_of, checkRateLimit. intros H.
  assert (Hskip :
    is_test NODE_ENV
    && negb (is_test NODE_ENV
             && Str.includes "req"
                  match SearchParams.get "q" (searchParams url) with
                  | Some q => Str.or_else q ""
                  | None => ""
                  end) = false).
  { destruct (is_test NODE_ENV); [cbn [andb] in *; exact H | reflexivity]. }
  rewrite Hskip. clear H Hskip.
  unfold rejected, accepted, tracker_of, bind, get_trackers, put_trackers,
    Date_now, throw, ret.
  destruct w as [trackers n reqs cs]. cbn [endpointTrackers ticks requests calls].
  destruct (trackers !! endpoint) as [t|] eqn:Hlook.
  - cbn [endpointTrackers ticks requests calls default from_option id].
    rewrite Hlook. cbn [endpointTrackers ticks requests calls].
    destruct (clock n - lastCallTime t <? 1000).
    + rewrite insert_id by exact Hlook. reflexivity.
    + reflexivity.
  - cbn [endpointTrackers ticks requests calls default from_option id].
    rewrite lookup_insert_eq.
    cbn [endpointTrackers ticks requests calls lastCallTime callCount].
    destruct (clock n - 0 <? 1000).
    + reflexivity.
    + cbn [endpointTrackers ticks requests calls].
      rewrite insert_insert_eq. reflexivity.
Qed.

(** ** The core call *)

Lemma callBraveApi_eq NODE_ENV clock network T url w :
  callBraveApi NODE_ENV clock network T url w =
  match checkRateLimit NODE_ENV clock (getEndpointFromUrl url) url w with
  | (Return _, w') => (exchange network T url (length (requests w')), sent url w')
  | (Throw e, w') => (Throw e, w')
  end.
Proof.
  unfold callBraveApi, bind at 1.
  destruct (checkRateLimit NODE_ENV clock (getEndpointFromUrl url) url w)
    as [[[]|e] w']; [|reflexivity].
  unfold try_catch, bind, fetch, exchange, sent.
  destruct (network (length (requests w')) url) as [r|f]; [|reflexivity].
  destruct (ok r); cbn [negb].
  - destruct (json r T) as [data|f]; reflexivity.
  - destruct (text r) as [errorText|f]; reflexivity.
Qed.

(** A call that the limiter lets through: bypassed or accepted. *)
Lemma callBraveApi_passed NODE_ENV clock network T url w w' :
  checkRateLimit NODE_ENV clock (getEndpointFromUrl url) url w = (Return tt, w') ->
  callBraveApi NODE_ENV clock network T url w =
  (exchange network T url (length (requests w')), sent url w').
Proof. intros H. rewrite callBraveApi_eq, H. reflexivity. Qed.

Lemma callBraveApi_rejected NODE_ENV clock network T url w e w' :
  checkRateLimit NODE_ENV clock (getEndpointFromUrl url) url w = (Throw e, w') ->
  callBraveApi NODE_ENV clock network T url w = (Throw e, w').
Proof. intros H. rewrite callBraveApi_eq, H. reflexivity. Qed.

(** What [checkRateLimit] leaves alone. *)
Lemma checkRateLimit_frame NODE_ENV clock endpoint url w :
  requests (snd (checkRateLimit NODE_ENV clock endpoint url w)) = requests w
  /\ calls (snd (checkRateLimit NODE_ENV clock endpoint url w)) = calls w
  /\ forall other, other <> endpoint ->
       endpointTrackers (snd (checkRateLimit NODE_ENV clock endpoint url w))
         !! other = endpointTrackers w !! other.
Proof.
  destruct (bypassed NODE_ENV url) eqn:Hb.
  - rewrite checkRateLimit_bypassed by exact Hb. auto.
  - rewrite checkRateLimit_eq by exact Hb.
    destruct (_ <? 1000); cbn [snd rejected accepted requests calls endpointTrackers];
      (split; [reflexivity|split; [reflexivity|]]);
      intros other Hne; apply lookup_insert_ne; congruence.
Qed.

Lemma callBraveApi_frame NODE_ENV clock network T url w :
  calls (snd (callBraveApi NODE_ENV clock network T url w)) = calls w
  /\ forall other, other <> getEndpointFromUrl url ->
       endpointTrackers (snd (callBraveApi NODE_ENV clock network T url w))
         !! other = endpointTrackers w !! other.
Proof.
  rewrite callBraveApi_eq.
  destruct (checkRateLimit_frame NODE_ENV clock (getEndpointFromUrl url) url w)
    as (_ & Hc & Ht).
  destruct (checkRateLimit NODE_ENV clock (getEndpointFromUrl url) url w)
    as [[[]|e] w']; cbn [snd sent calls endpointTrackers] in *; auto.
Qed.

(** The only request [callBraveApi] can make is the one for its URL. *)
Lemma callBraveApi_requests NODE_ENV clock network T url w :
  requests (snd (callBraveApi NODE_ENV clock network T url w)) = requests w
  \/ requests (snd (callBraveApi NODE_ENV clock network T url w))
     = (requests w ++ [url])%list.
Proof.
  rewrite callBraveApi_eq.
  destruct (checkRateLimit_frame NODE_ENV clock (getEndpointFromUrl url) url w)
    as (Hr & _ & _).
  destruct (checkRateLimit NODE_ENV clock (getEndpointFromUrl url) url w)
    as [[[]|e] w']; cbn [snd sent requests] in *; rewrite Hr; auto.
Qed.

(** C1, as the specification states it, fails under the test-mode bypass:
    with [NODE_ENV] set to [test] and a query without [req], a call made 500
    ms after the stored [lastCallTime] is permitted. *)
Lemma checkRateLimit_bypass_counterexample :
  ~ fails_exactly_when_early (Some "test") (clock_of [10500; 10500])
      "web/search" (search_url "weather") called_at_10000.
Proof.
  unfold fails_exactly_when_early. intros [_ H].
  assert (Hearly :
    clock_of [10500; 10500] (ticks called_at_10000)
    - lastCallTime (tracker_of "web/search" called_at_10000) < 1000)
    by (vm_compute; reflexivity).
  specialize (H Hearly).
  rewrite checkRateLimit_bypassed in H by reflexivity.
  discriminate H.
Qed.

(** C1 (amended): unless the test-mode bypass applies ([NODE_ENV] is [test]
    and the [q] parameter does not contain [req]; then the call is permitted
    and the state is left as it is), [checkRateLimit] fails with the
    rate-limit error exactly when the clock reading minus the tracker's
    [lastCallTime] is below 1000, the tracker of an endpoint seen for the
    first time starting at [lastCallTime = 0]; otherwise it permits the call,
    stores the clock reading taken at that moment as [lastCallTime] and adds
    one to [callCount]. *)
Theorem checkRateLimit_spec NODE_ENV clock endpoint url w :
  (bypassed NODE_ENV url = true ->
   checkRateLimit NODE_ENV clock endpoint url w = (Return tt, w))
  /\ (bypassed NODE_ENV url = false ->
      (fst (checkRateLimit NODE_ENV clock endpoint url w) = Throw rate_limit_error
       <-> clock (ticks w) - lastCallTime (tracker_of endpoint w) < 1000)
      /\ (fst (checkRateLimit NODE_ENV clock endpoint url w) = Return tt
          <-> 1000 <= clock (ticks w) - lastCallTime (tracker_of endpoint w))
      /\ (1000 <= clock (ticks w) - lastCallTime (tracker_of endpoint w) ->
          endpointTrackers (snd (checkRateLimit NODE_ENV clock endpoint url w))
            !! endpoint
          = Some (mkTracker (clock (S (ticks w)))
                    (callCount (tracker_of endpoint w) + 1)))).
Proof.
  split; [apply checkRateLimit_bypassed|].
  intros Hb. rewrite checkRateLimit_eq by exact Hb.
  destruct (Z.ltb_spec (clock (ticks w) - lastCallTime (tracker_of endpoint w)) 1000)
    as [Hlt|Hge]; cbn [fst snd].
  - repeat split; intros; try discriminate; try lia; reflexivity.
  - repeat split; intros; try discriminate; try lia; try reflexivity.
    cbn [accepted endpointTrackers]. apply lookup_insert_eq.
Qed.

(** In production, a first call at time 10000 is accepted and the second
    clock reading, 10001, is stored. *)
Lemma checkRateLimit_spec_witness :
  bypassed None (search_url "weather") = false
  /\ 1000 <= clock_of [10000; 10001] (ticks fresh)
             - lastCallTime (tracker_of "web/search" fresh)
  /\ endpointTrackers
       (snd (checkRateLimit None (clock_of [10000; 10001]) "web/search"
               (search_url "weather") fresh)) !! "web/search"
     = Some (mkTracker 10001 1).
Proof.
  assert (Hb : bypassed None (search_url "weather") = false) by reflexivity.
  assert (Hlate : 1000 <= clock_of [10000; 10001] (ticks fresh)
                          - lastCallTime (tracker_of "web/search" fresh))
    by (vm_compute; discriminate).
  split; [exact Hb|]. split; [exact Hlate|].
  exact (proj2 (proj2 (proj2 (checkRateLimit_spec None (clock_of [10000; 10001])
                                "web/search" (search_url "weather") fresh) Hb))
           Hlate).
Defined.

(** ** The URLs of the client functions *)

Example count_50_is_20 :
  SearchParams.get "count"
    (searchParams (webSearchUrl "test" (VNum (Fin 50)) (VNum (Fin 0))))
  = Some "20".
Proof. vm_compute. reflexivity. Qed.

Example count_undefined_is_omitted :
  SearchParams.has "count"
    (searchParams (webSearchUrl "test" VUndefined (VNum (Fin 0)))) = false.
Proof. vm_compute. reflexivity. Qed.

Example offset_minus_5_is_0 :
  SearchParams.get "offset"
    (searchParams (webSearchUrl "test" (VNum (Fin 10)) (VNum (Fin (-5)))))
  = Some "0".
Proof. vm_compute. reflexivity. Qed.

Example offset_20_is_9 :
  SearchParams.get "offset"
    (searchParams (webSearchUrl "test" (VNum (Fin 10)) (VNum (Fin 20))))
  = Some "9".
Proof. vm_compute. reflexivity. Qed.

Lemma offset_clamp_range (o : JsNum) :
  Num.isNaN o = false ->
  exists v, Num.max (Fin 0) (Num.min o (Fin 9)) = Fin v /\ 0 <= v <= 9.
Proof.
  destruct o as [| | |z]; cbn; intros H; try discriminate.
  - exists 9. split; [reflexivity|lia].
  - exists 0. split; [reflexivity|lia].
  - exists (Z.max 0 (Z.min z 9)). split; [reflexivity|lia].
Qed.

(** C6, as the specification states it, fails for an infinite count:
    [Infinity] is a number and not [NaN], so the URL gets [count=20]. *)
Lemma count_infinity_counterexample :
  ~ count_needs_finite "pizza" (VNum PosInf) (VNum (Fin 0)).
Proof.
  unfold count_needs_finite. intros H.
  destruct (H ltac:(vm_compute; reflexivity)) as [z Hz]. discriminate Hz.
Qed.

(** C6 (amended): the URL [fetchWebSearch] builds holds [q] set to the
    query, then [count] exactly when the count is a number other than [NaN]
    (an infinity included), with value [min(count, 20)] and no lower clamp,
    then [offset] exactly when the offset is a number other than [NaN], with
    value clamped into 0..9, then [result_filter=web], and nothing else; a
    count or offset that is not a number, or is [NaN], is left out. *)
Theorem webSearchUrl_params query count offset :
  searchParams (webSearchUrl query count offset)
  = ([("q", query)]
     ++ number_param "count" (fun c => Num.min c (Fin 20)) count
     ++ number_param "offset"
          (fun o => Num.max (Fin 0) (Num.min o (Fin 9))) offset
     ++ [("result_filter", "web")])%list
  /\ (forall z, Num.min (Fin z) (Fin 20) = Fin (Z.min z 20) /\ Z.min z 20 <= 20)
  /\ (forall o, Num.isNaN o = false ->
        exists v, Num.max (Fin 0) (Num.min o (Fin 9)) = Fin v /\ 0 <= v <= 9)
  /\ pathname (webSearchUrl query count offset) = "/res/v1/web/search".
Proof.
  split; [|split; [|split]].
  - unfold webSearchUrl, valid_number, number_param.
    destruct count as [| | |[| | |c]| | |], offset as [| | |[| | |o]| | |];
      reflexivity.
  - intros z. split; [reflexivity|lia].
  - apply offset_clamp_range.
  - unfold webSearchUrl.
    destruct (valid_number count), (valid_number offset); reflexivity.
Qed.

(** An offset of 20 is a number other than [NaN]; its clamp is in 0..9. *)
Lemma webSearchUrl_params_witness :
  Num.isNaN (Fin 20) = false
  /\ exists v, Num.max (Fin 0) (Num.min (Fin 20) (Fin 9)) = Fin v /\ 0 <= v <= 9.
Proof.
  split; [reflexivity|].
  exact (proj1 (proj2 (proj2 (webSearchUrl_params "test" (VNum (Fin 10))
                                (VNum (Fin 20)))))
           (Fin 20) eq_refl).
Defined.

Lemma append_ids_fold (survivors : list string) (url : URL) :
  fold_left (fun u id => url_append "ids" id u) survivors url
  = mkURL (origin url) (pathname url)
      (searchParams url ++ map (fun id => ("ids", id)) survivors)%list.
Proof.
  revert url. induction survivors as [|s rest IH]; intros url; cbn [fold_left map].
  - rewrite app_nil_r. destruct url; reflexivity.
  - rewrite IH. unfold url_append, SearchParams.append.
    cbn [origin pathname searchParams]. rewrite <- app_assoc. reflexivity.
Qed.

Lemma poiDetailsUrl_eq ids :
  poiDetailsUrl ids = ids_url "/res/v1/local/pois" (filter_Boolean ids).
Proof. unfold poiDetailsUrl, append_ids. rewrite append_ids_fold. reflexivity. Qed.

Lemma poiDescriptionsUrl_eq ids :
  poiDescriptionsUrl ids
  = ids_url "/res/v1/local/descriptions" (filter_Boolean ids).
Proof.
  unfold poiDescriptionsUrl, append_ids. rewrite append_ids_fold. reflexivity.
Qed.

Lemma filter_Boolean_In ids s :
  In s (filter_Boolean ids) <-> In (Some s) ids /\ s <> "".
Proof.
  unfold filter_Boolean. induction ids as [|[t|] rest IH]; cbn [filter_map In].
  - tauto.
  - destruct t as [|c t']; cbn [Str.truthy In].
    + rewrite IH. split.
      * intros [H1 H2]. auto.
      * intros [[H|H] H2]; [congruence|auto].
    + rewrite IH. split.
      * intros [H|[H1 H2]]; [subst s; split; [auto|discriminate]|auto].
      * intros [[H|H] H2]; [left; congruence|auto].
  - rewrite IH. split.
    + intros [H1 H2]. auto.
    + intros [[H|H] H2]; [discriminate|auto].
Qed.

Example ids_with_null_and_undefined :
  searchParams (poiDetailsUrl [Some "poi1"; None; Some "poi3"; None])
  = [("ids", "poi1"); ("ids", "poi3")].
Proof. reflexivity. Qed.

(** C7: with an empty id list [fetchPoiDetails] returns [{results: []}] and
    [fetchPoiDescriptions] returns [{descriptions: {}}], and neither makes a
    request, reads the clock or touches a tracker; with a non-empty list the
    call goes to [callBraveApi] with the URL that holds one [ids] pair for
    each id that is not falsy ([null], [undefined] or the empty string), in
    order. *)
Theorem poi_fetch_spec NODE_ENV clock network :
  (forall w,
     fetchPoiDetails NODE_ENV clock network [] w
     = (Return (mkBravePoiResponse []), noted (CallPoiDetails []) w))
  /\ (forall w,
        fetchPoiDescriptions NODE_ENV clock network [] w
        = (Return (mkBraveDescription []), noted (CallPoiDescriptions []) w))
  /\ (forall c w,
        endpointTrackers (noted c w) = endpointTrackers w
        /\ ticks (noted c w) = ticks w
        /\ requests (noted c w) = requests w)
  /\ (forall id ids w,
        fetchPoiDetails NODE_ENV clock network (id :: ids) w
        = callBraveApi NODE_ENV clock network AsBravePoiResponse
            (ids_url "/res/v1/local/pois" (filter_Boolean (id :: ids)))
            (noted (CallPoiDetails (id :: ids)) w))
  /\ (forall id ids w,
        fetchPoiDescriptions NODE_ENV clock network (id :: ids) w
        = callBraveApi NODE_ENV clock network AsBraveDescription
            (ids_url "/res/v1/local/descriptions" (filter_Boolean (id :: ids)))
            (noted (CallPoiDescriptions (id :: ids)) w))
  /\ (forall ids s,
        In s (filter_Boolean ids) <-> In (Some s) ids /\ s <> "").
Proof.
  split; [reflexivity|]. split; [reflexivity|].
  split; [intros c w; repeat split|].
  split; [|split].
  - intros id ids w. unfold fetchPoiDetails, bind, entered.
    cbn [length Nat.eqb]. rewrite poiDetailsUrl_eq. reflexivity.
  - intros id ids w. unfold fetchPoiDescriptions, bind, entered.
    cbn [length Nat.eqb]. rewrite poiDescriptionsUrl_eq. reflexivity.
  - apply filter_Boolean_In.
Qed.

(** ** Failures of the core call *)

Lemma substring_0_length (m : nat) (s : string) :
  (String.length (String.substring 0 m s) <= m)%nat.
Proof.
  revert s. induction m as [|m IH]; intros [|c s]; cbn; try lia.
  specialize (IH s). lia.
Qed.

Lemma length_append (s t : string) :
  String.length (s ++ t) = (String.length s + String.length t)%nat.
Proof.
  induction s as [|c s IH]; [reflexivity|].
  change (String c s ++ t) with (String c (s ++ t)).
  cbn [String.length]. rewrite IH. reflexivity.
Qed.

Lemma http_error_details_length (r : Response) (errorText : string) :
  (String.length (statusText r ++ ": " ++ String.substring 0 200 errorText ++ "...")
   <= String.length (statusText r) + 205)%nat.
Proof.
  rewrite !length_append. pose proof (substring_0_length 200 errorText).
  cbn [String.length]. lia.
Qed.

(** C9: once the limiter has let the call through, a response whose status
    is not a success status, with a readable body, makes [callBraveApi] fail
    with a [BraveApiError] that carries that status and the details
    [statusText + ": " + body.substring(0, 200) + "..."] (at most 200
    characters of the body, 205 more than the status text in all); a
    [fetch] that fails makes it fail with a [BraveApiError] that has no
    status and no details and whose message is [Network error calling Brave
    API: ] followed by the description of the cause, and so does a body
    that cannot be read. *)
Theorem callBraveApi_failures NODE_ENV clock network T url w w' :
  checkRateLimit NODE_ENV clock (getEndpointFromUrl url) url w = (Return tt, w') ->
  (forall r errorText,
     network (length (requests w')) url = Return r ->
     ok r = false ->
     text r = Return errorText ->
     callBraveApi NODE_ENV clock network T url w
     = (Throw (BraveApiError "API request failed" (Some (status r))
                 (Some (statusText r ++ ": "
                        ++ String.substring 0 200 errorText ++ "..."))),
        sent url w')
     /\ (String.length (String.substring 0 200 errorText) <= 200)%nat
     /\ (String.length (statusText r ++ ": "
                        ++ String.substring 0 200 errorText ++ "...")
         <= String.length (statusText r) + 205)%nat)
  /\ (forall f,
        network (length (requests w')) url = Throw f ->
        callBraveApi NODE_ENV clock network T url w
        = (Throw (BraveApiError
                    ("Network error calling Brave API: " ++ describe f)
                    None None),
           sent url w'))
  /\ (forall r f,
        network (length (requests w')) url = Return r ->
        (if ok r then json r T = Throw f else text r = Throw f) ->
        callBraveApi NODE_ENV clock network T url w
        = (Throw (BraveApiError
                    ("Network error calling Brave API: " ++ describe f)
                    None None),
           sent url w')).
Proof.
  intros Hpass. rewrite (callBraveApi_passed _ _ _ _ _ _ _ Hpass).
  unfold exchange. split; [|split].
  - intros r errorText Hnet Hok Htext. rewrite Hnet, Hok, Htext.
    split; [reflexivity|]. split.
    + apply substring_0_length.
    + apply http_error_details_length.
  - intros f Hnet. rewrite Hnet. reflexivity.
  - intros r f Hnet Hbody. rewrite Hnet.
    destruct (ok r); rewrite Hbody; reflexivity.
Qed.

(** A 401 answer with the body [Bad Key] to the first call of a fresh
    process. *)
Lemma callBraveApi_failures_witness :
  checkRateLimit None (clock_of [10000; 10001])
    (getEndpointFromUrl (search_url "weather")) (search_url "weather") fresh
  = (Return tt, first_accepted)
  /\ callBraveApi None (clock_of [10000; 10001]) network_401 AsBraveWeb
       (search_url "weather") fresh
     = (Throw (BraveApiError "API request failed" (Some 401)
                 (Some "Unauthorized: Bad Key...")),
        sent (search_url "weather") first_accepted).
Proof.
  assert (Hpass :
    checkRateLimit None (clock_of [10000; 10001])
      (getEndpointFromUrl (search_url "weather")) (search_url "weather") fresh
    = (Return tt, first_accepted))
    by (rewrite checkRateLimit_eq; reflexivity).
  split; [exact Hpass|].
  exact (proj1 (proj1 (callBraveApi_failures None (clock_of [10000; 10001])
                         network_401 AsBraveWeb (search_url "weather") fresh
                         first_accepted Hpass)
                  unauthorized "Bad Key" eq_refl eq_refl eq_refl)).
Defined.

(** ** The client functions, call by call *)

Lemma get_q_webSearchUrl query count offset :
  SearchParams.get "q" (searchParams (webSearchUrl query count offset))
  = Some query.
Proof.
  unfold webSearchUrl.
  destruct (valid_number count), (valid_number offset); reflexivity.
Qed.

Lemma endpoint_webSearchUrl query count offset :
  getEndpointFromUrl (webSearchUrl query count offset) = "web/search".
Proof.
  unfold webSearchUrl.
  destruct (valid_number count), (valid_number offset); reflexivity.
Qed.

Lemma endpoint_initialLocalSearchUrl query count :
  getEndpointFromUrl (initialLocalSearchUrl query count) = "web/search".
Proof. reflexivity. Qed.

Lemma bypassed_same_query NODE_ENV query count count' offset :
  bypassed NODE_ENV (webSearchUrl query count' offset)
  = bypassed NODE_ENV (initialLocalSearchUrl query count).
Proof.
  unfold bypassed, query_of. rewrite get_q_webSearchUrl. reflexivity.
Qed.

Lemma endpoint_poiDetailsUrl ids :
  getEndpointFromUrl (poiDetailsUrl ids) = "local/pois".
Proof. rewrite poiDetailsUrl_eq. reflexivity. Qed.

Lemma endpoint_poiDescriptionsUrl ids :
  getEndpointFromUrl (poiDescriptionsUrl ids) = "local/descriptions".
Proof. rewrite poiDescriptionsUrl_eq. reflexivity. Qed.

Lemma fetchWebSearch_calls NODE_ENV clock network query count offset w :
  calls (snd (fetchWebSearch NODE_ENV clock network query count offset w))
  = (calls w ++ [CallWebSearch query count offset])%list.
Proof.
  unfold fetchWebSearch, bind, entered.
  apply (callBraveApi_frame NODE_ENV clock network AsBraveWeb).
Qed.

Lemma fetchInitialLocalSearch_calls NODE_ENV clock network query count w :
  calls (snd (fetchInitialLocalSearch NODE_ENV clock network query count w))
  = (calls w ++ [CallInitialLocalSearch query count])%list.
Proof.
  unfold fetchInitialLocalSearch, bind, entered.
  apply (callBraveApi_frame NODE_ENV clock network AsBraveWeb).
Qed.

Lemma fetchPoiDetails_frame NODE_ENV clock network ids w :
  calls (snd (fetchPoiDetails NODE_ENV clock network ids w))
  = (calls w ++ [CallPoiDetails ids])%list
  /\ endpointTrackers (snd (fetchPoiDetails NODE_ENV clock network ids w))
       !! "web/search" = endpointTrackers w !! "web/search".
Proof.
  unfold fetchPoiDetails, bind, entered.
  destruct (length ids =? 0)%nat; [split; reflexivity|].
  destruct (callBraveApi_frame NODE_ENV clock network AsBravePoiResponse
              (poiDetailsUrl ids) (noted (CallPoiDetails ids) w)) as [Hc Ht].
  split; [exact Hc|].
  apply Ht. rewrite endpoint_poiDetailsUrl. discriminate.
Qed.

Lemma fetchPoiDescriptions_frame NODE_ENV clock network ids w :
  calls (snd (fetchPoiDescriptions NODE_ENV clock network ids w))
  = (calls w ++ [CallPoiDescriptions ids])%list
  /\ endpointTrackers (snd (fetchPoiDescriptions NODE_ENV clock network ids w))
       !! "web/search" = endpointTrackers w !! "web/search".
Proof.
  unfold fetchPoiDescriptions, bind, entered.
  destruct (length ids =? 0)%nat; [split; reflexivity|].
  destruct (callBraveApi_frame NODE_ENV clock network AsBraveDescription
              (poiDescriptionsUrl ids) (noted (CallPoiDescriptions ids) w))
    as [Hc Ht].
  split; [exact Hc|].
  apply Ht. rewrite endpoint_poiDescriptionsUrl. discriminate.
Qed.

Lemma performWebSearch_calls NODE_ENV clock network query count offset w :
  calls (snd (performWebSearch NODE_ENV clock network query count offset w))
  = (calls w
     ++ [CallWebSearch query (VNum (default (Fin 10) count))
           (VNum (default (Fin 0) offset))])%list.
Proof.
  unfold performWebSearch, bind.
  pose proof (fetchWebSearch_calls NODE_ENV clock network query
                (VNum (default (Fin 10) count)) (VNum (default (Fin 0) offset)) w)
    as H.
  destruct (fetchWebSearch NODE_ENV clock network query _ _ w) as [[data|e] w'];
    exact H.
Qed.


Lemma performLocalSearch_fallback NODE_ENV clock network query count w webData
  w1 w2 :
  fetchInitialLocalSearch NODE_ENV clock network query count w
  = (Return webData, w1) ->
  fallback_from NODE_ENV clock network (locationIds_of webData) w1 w2 ->
  performLocalSearch NODE_ENV clock network query count w
  = performWebSearch NODE_ENV clock network query (Some count) None w2.
Proof.
  intros Hinit Hfb. unfold performLocalSearch, bind at 1. rewrite Hinit.
  destruct Hfb as [[Hnil ->]|[Hne [e He]]].
  - rewrite Hnil. reflexivity.
  - destruct (locationIds_of webData) as [|id ids] eqn:Hids; [congruence|].
    cbn [length Nat.eqb]. unfold try_catch.
    change (bind (fetchPoiDetails NODE_ENV clock network (map Some (id :: ids)))
              (fun poisData =>
                 bind (fetchPoiDescriptions NODE_ENV clock network
                         (map Some (id :: ids)))
                   (fun descriptionsData =>
                      ret (formatLocalResults poisData descriptionsData))))
      with (enrichment NODE_ENV clock network (id :: ids)).
    rewrite He. reflexivity.
Qed.

(** ** Local search *)



Example no_pois_makes_no_web_search :
  calls (snd (performLocalSearch None patient_clock network_no_pois "pizza"
                (Fin 5) fresh))
  = [CallInitialLocalSearch "pizza" (Fin 5); CallPoiDetails [Some "poi1"];
     CallPoiDescriptions [Some "poi1"]].
Proof. vm_compute. reflexivity. Qed.



(** C3: when the initial location search returns with at least one
    location id and the details fetch fails, or the details fetch returns
    and the descriptions fetch fails, [performLocalSearch] is the web search
    for the same query and count with offset 0, run from the state the
    failure left: the failure is not propagated; the client functions
    entered are the initial search, the details (and the descriptions when
    reached) once each, and one web search. *)
Theorem local_search_enrichment_failure NODE_ENV clock network query count w
  webData w1 e w2 :
  fetchInitialLocalSearch NODE_ENV clock network query count w
  = (Return webData, w1) ->
  locationIds_of webData <> [] ->
  (fetchPoiDetails NODE_ENV clock network (map Some (locationIds_of webData)) w1
   = (Throw e, w2)
   \/ exists poisData w',
        fetchPoiDetails NODE_ENV clock network
          (map Some (locationIds_of webData)) w1 = (Return poisData, w')
        /\ fetchPoiDescriptions NODE_ENV clock network
             (map Some (locationIds_of webData)) w' = (Throw e, w2)) ->
  performLocalSearch NODE_ENV clock network query count w
  = performWebSearch NODE_ENV clock network query (Some count) (Some (Fin 0)) w2
  /\ exists enrich,
       (enrich = [CallPoiDetails (map Some (locationIds_of webData))]
        \/ enrich = [CallPoiDetails (map Some (locationIds_of webData));
                     CallPoiDescriptions (map Some (locationIds_of webData))])
       /\ calls (snd (performLocalSearch NODE_ENV clock network query count w))
          = (calls w ++ [CallInitialLocalSearch query count] ++ enrich
             ++ [CallWebSearch query (VNum count) (VNum (Fin 0))])%list.
Proof.
  intros Hinit Hne Hfail.
  pose proof (fetchInitialLocalSearch_calls NODE_ENV clock network query
                count w) as Hc1.
  rewrite Hinit in Hc1. cbn [snd] in Hc1.
  assert (Henrich :
    enrichment NODE_ENV clock network (locationIds_of webData) w1 = (Throw e, w2)).
  { unfold enrichment, bind.
    destruct Hfail as [Hd|(poisData & w' & Hd & Hs)]; rewrite Hd; [reflexivity|].
    rewrite Hs. reflexivity. }
  assert (Heq :
    performLocalSearch NODE_ENV clock network query count w
    = performWebSearch NODE_ENV clock network query (Some count)
        (Some (Fin 0)) w2).
  { apply (performLocalSearch_fallback _ _ _ _ _ _ webData w1 w2 Hinit).
    right. split; [exact Hne|]. exists e. exact Henrich. }
  split; [exact Heq|]. rewrite Heq, performWebSearch_calls.
  cbn [default from_option id].
  destruct Hfail as [Hd|(poisData & w' & Hd & Hs)].
  - exists [CallPoiDetails (map Some (locationIds_of webData))].
    split; [left; reflexivity|].
    pose proof (proj1 (fetchPoiDetails_frame NODE_ENV clock network
                         (map Some (locationIds_of webData)) w1)) as Hc2.
    rewrite Hd in Hc2. cbn [snd] in Hc2.
    rewrite Hc2, Hc1, <- !app_assoc. reflexivity.
  - exists [CallPoiDetails (map Some (locationIds_of webData));
            CallPoiDescriptions (map Some (locationIds_of webData))].
    split; [right; reflexivity|].
    pose proof (proj1 (fetchPoiDetails_frame NODE_ENV clock network
                         (map Some (locationIds_of webData)) w1)) as Hc2.
    rewrite Hd in Hc2. cbn [snd] in Hc2.
    pose proof (proj1 (fetchPoiDescriptions_frame NODE_ENV clock network
                         (map Some (locationIds_of webData)) w')) as Hc3.
    rewrite Hs in Hc3. cbn [snd] in Hc3.
    rewrite Hc3, Hc2, Hc1, <- !app_assoc. reflexivity.
Qed.

(** The details request fails; the web search, 1499 ms after the location
    search, answers. *)
Lemma local_search_enrichment_failure_witness :
  locationIds_of one_location <> []
  /\ performLocalSearch None patient_clock network_details_down "pizza" (Fin 3)
       fresh
     = performWebSearch None patient_clock network_details_down "pizza"
         (Some (Fin 3)) (Some (Fin 0))
         (snd (fetchPoiDetails None patient_clock network_details_down
                 [Some "poi1"]
                 (snd (fetchInitialLocalSearch None patient_clock
                         network_details_down "pizza" (Fin 3) fresh))))
  /\ fst (performLocalSearch None patient_clock network_details_down "pizza"
            (Fin 3) fresh)
     = Return ("Title: Fallback Web" ++ Str.newline ++ "Description: desc"
               ++ Str.newline ++ "URL: url").
Proof.
  assert (Hne : locationIds_of one_location <> []) by discriminate.
  split; [exact Hne|]. split; [|vm_compute; reflexivity].
  refine (proj1 (local_search_enrichment_failure None patient_clock
                   network_details_down "pizza" (Fin 3) fresh one_location
                   (snd (fetchInitialLocalSearch None patient_clock
                           network_details_down "pizza" (Fin 3) fresh))
                   (BraveApiError
                      "Network error calling Brave API: Network connection failed"
                      None None)
                   _ _ Hne _)).
  - vm_compute; reflexivity.
  - left. vm_compute; reflexivity.
Defined.

(** ** One budget for both searches *)

Lemma callBraveApi_returns NODE_ENV clock network T url w data w1 :
  bypassed NODE_ENV url = false ->
  callBraveApi NODE_ENV clock network T url w = (Return data, w1) ->
  w1 = sent url (accepted clock (getEndpointFromUrl url) w).
Proof.
  intros Hb. rewrite callBraveApi_eq, checkRateLimit_eq by exact Hb.
  destruct (_ <? 1000); intros H; [discriminate H|].
  injection H as _ <-. reflexivity.
Qed.

Lemma enrichment_frame NODE_ENV clock network ids w :
  endpointTrackers (snd (enrichment NODE_ENV clock network ids w)) !! "web/search"
  = endpointTrackers w !! "web/search".
Proof.
  unfold enrichment, bind.
  pose proof (proj2 (fetchPoiDetails_frame NODE_ENV clock network
                       (map Some ids) w)) as Hd.
  destruct (fetchPoiDetails NODE_ENV clock network (map Some ids) w)
    as [[poisData|e] w']; cbn [snd] in *; [|exact Hd].
  pose proof (proj2 (fetchPoiDescriptions_frame NODE_ENV clock network
                       (map Some ids) w')) as Hs.
  destruct (fetchPoiDescriptions NODE_ENV clock network (map Some ids) w')
    as [[descriptionsData|e] w'']; cbn [snd ret] in *; congruence.
Qed.

Lemma fallback_from_frame NODE_ENV clock network ids w1 w2 :
  fallback_from NODE_ENV clock network ids w1 w2 ->
  endpointTrackers w2 !! "web/search" = endpointTrackers w1 !! "web/search".
Proof.
  intros [[_ ->]|[_ [e He]]]; [reflexivity|].
  pose proof (enrichment_frame NODE_ENV clock network ids w1) as H.
  rewrite He in H. exact H.
Qed.

(** C5: [fetchWebSearch] and [fetchInitialLocalSearch] build URLs with the
    endpoint identifier [web/search], so they share one tracker: when the
    limiter is active (no test-mode bypass) and the fallback web search of
    [performLocalSearch] reads the clock less than 1000 ms after the
    [lastCallTime] its initial location search stored, [performLocalSearch]
    fails with the rate-limit error and the fallback makes no request. *)
Theorem fallback_shares_web_search_budget NODE_ENV clock network query count w
  webData w1 w2 :
  bypassed NODE_ENV (initialLocalSearchUrl query count) = false ->
  fetchInitialLocalSearch NODE_ENV clock network query count w
  = (Return webData, w1) ->
  fallback_from NODE_ENV clock network (locationIds_of webData) w1 w2 ->
  clock (ticks w2) - lastCallTime (tracker_of "web/search" w1) < 1000 ->
  (forall c o, getEndpointFromUrl (webSearchUrl query c o) = "web/search")
  /\ getEndpointFromUrl (initialLocalSearchUrl query count) = "web/search"
  /\ lastCallTime (tracker_of "web/search" w1) = clock (S (ticks w))
  /\ performLocalSearch NODE_ENV clock network query count w
     = (Throw rate_limit_error,
        rejected "web/search"
          (noted (CallWebSearch query (VNum count) (VNum (Fin 0))) w2)).
Proof.
  intros Hb Hinit Hfb Hearly.
  split; [intros c o; apply endpoint_webSearchUrl|].
  split; [reflexivity|].
  assert (Hw1 :
    w1 = sent (initialLocalSearchUrl query count)
           (accepted clock "web/search"
              (noted (CallInitialLocalSearch query count) w))).
  { apply (callBraveApi_returns NODE_ENV clock network AsBraveWeb
             (initialLocalSearchUrl query count) _ webData w1 Hb).
    exact Hinit. }
  split.
  - rewrite Hw1. unfold tracker_of, sent, accepted.
    cbn [endpointTrackers]. rewrite lookup_insert_eq. reflexivity.
  - rewrite (performLocalSearch_fallback _ _ _ _ _ _ webData w1 w2 Hinit Hfb).
    unfold performWebSearch, bind at 1, fetchWebSearch, bind at 1, entered.
    cbn [default from_option id].
    change (mkWorld (endpointTrackers w2) (ticks w2) (requests w2)
              (calls w2 ++ [CallWebSearch query (VNum count) (VNum (Fin 0))]))
      with (noted (CallWebSearch query (VNum count) (VNum (Fin 0))) w2).
    rewrite callBraveApi_eq, endpoint_webSearchUrl.
    rewrite checkRateLimit_eq
      by (rewrite (bypassed_same_query _ _ count); exact Hb).
    assert (Htr :
      tracker_of "web/search"
        (noted (CallWebSearch query (VNum count) (VNum (Fin 0))) w2)
      = tracker_of "web/search" w1).
    { unfold tracker_of, noted. cbn [endpointTrackers].
      rewrite (fallback_from_frame _ _ _ _ _ _ Hfb). reflexivity. }
    rewrite Htr. cbn [noted ticks].
    destruct (Z.ltb_spec (clock (ticks w2)
                          - lastCallTime (tracker_of "web/search" w1)) 1000)
      as [_|Hge]; [reflexivity|lia].
Qed.

(** In production, a location search without results whose fallback comes
    2 ms after the stored time is rejected. *)
Lemma fallback_shares_web_search_budget_witness :
  bypassed None (initialLocalSearchUrl "pizza" (Fin 5)) = false
  /\ fst (performLocalSearch None hasty_clock network_no_locations "pizza"
            (Fin 5) fresh)
     = Throw (BraveApiError "Rate limit exceeded: > 1/second" (Some 429) None).
Proof.
  split; [reflexivity|].
  refine (f_equal fst
            (proj2 (proj2 (proj2
               (fallback_shares_web_search_budget None hasty_clock
                  network_no_locations "pizza" (Fin 5) fresh no_locations
                  (snd (fetchInitialLocalSearch None hasty_clock
                          network_no_locations "pizza" (Fin 5) fresh))
                  (snd (fetchInitialLocalSearch None hasty_clock
                          network_no_locations "pizza" (Fin 5) fresh))
                  eq_refl _ _ _))))).
  - vm_compute; reflexivity.
  - left. split; reflexivity.
  - vm_compute; reflexivity.
Defined.

(** ** The handler *)

Lemma callToolHandler_local_rejection NODE_ENV clock network request w :
  known_tool (name request) && valid_for (name request) (arguments request)
  = false ->
  callToolHandler NODE_ENV clock network request w
  = (Return (text_response
               ("Internal Server Error: " ++ local_rejection (name request))
               true),
     w).
Proof.
  destruct request as [tool args]. cbn [name arguments].
  unfold local_rejection.
  unfold callToolHandler, dispatch, try_catch, bind, known_tool, valid_for,
    expected_shape, invalid_arguments, new_Error, throw, ret, errorMessage,
    describe.
  cbn [name arguments].
  destruct (String.eqb tool "brave_web_search") eqn:E1; cbn [orb andb].
  { intros ->. reflexivity. }
  destruct (String.eqb tool "brave_local_search") eqn:E2; cbn [orb andb].
  { intros ->. reflexivity. }
  destruct (String.eqb tool "brave_poi_details") eqn:E3; cbn [orb andb].
  { intros ->. reflexivity. }
  destruct (String.eqb tool "brave_poi_descriptions") eqn:E4; cbn [orb andb].
  { intros ->. reflexivity. }
  intros _. reflexivity.
Qed.

Lemma nothing_valid_for_undefined name : valid_for name VUndefined = false.
Proof.
  unfold valid_for. repeat (destruct (String.eqb name _); [reflexivity|]).
  reflexivity.
Qed.

(** C10: a call whose tool name is unknown, or whose arguments the type
    guard of the tool rejects, is answered from inside the handler with
    [isError = true] and a text that starts with [Internal Server Error: ],
    followed by [Unknown tool requested: <name>] or by [Invalid arguments
    for tool "<name>". Expected: <shape>]; the state of the process is left
    as it was. *)
Theorem local_rejections_are_internal NODE_ENV clock network request w :
  known_tool (name request) && valid_for (name request) (arguments request)
  = false ->
  exists message,
    callToolHandler NODE_ENV clock network request w
    = (Return (mkToolResponse
                 [mkTextContent "text" ("Internal Server Error: " ++ message)]
                 true),
       w)
    /\ (if known_tool (name request) then
          message
          = "Invalid arguments for tool " ++ Str.dquote ++ name request
            ++ Str.dquote ++ ". Expected: " ++ expected_shape (name request)
        else message = "Unknown tool requested: " ++ name request).
Proof.
  intros H. exists (local_rejection (name request)). split.
  - apply callToolHandler_local_rejection. exact H.
  - unfold local_rejection. destruct (known_tool (name request)); reflexivity.
Qed.

(** A web search called with a count and no query. *)
Lemma local_rejections_are_internal_witness :
  exists message,
    callToolHandler None (clock_of []) no_network
      (mkRequest "brave_web_search" (VObj [("count", VNum (Fin 10))])) fresh
    = (Return (mkToolResponse
                 [mkTextContent "text" ("Internal Server Error: " ++ message)]
                 true),
       fresh)
    /\ message
       = "Invalid arguments for tool " ++ Str.dquote ++ "brave_web_search"
         ++ Str.dquote
         ++ ". Expected: { query: string, count?: number, offset?: number }".
Proof.
  exact (local_rejections_are_internal None (clock_of []) no_network
           (mkRequest "brave_web_search" (VObj [("count", VNum (Fin 10))]))
           fresh eq_refl).
Defined.

(** C2 is not what the handler does: a web search called without arguments
    is answered with the text of the type guard's rejection, which does not
    say that tool arguments are required, the text the test [should return
    error for missing arguments] of the repository expects. *)
Lemma missing_arguments_counterexample :
  ~ answers_arguments_required None (clock_of []) no_network
      "brave_web_search" fresh.
Proof.
  intros (response & w' & Hresp & _ & Hmentions).
  rewrite callToolHandler_local_rejection in Hresp by reflexivity.
  injection Hresp as <- _. vm_compute in Hmentions. discriminate Hmentions.
Qed.

(** C2, the handler at a call without arguments: the explicit check for
    missing arguments is gone from [callToolHandler], so such a call is not
    told apart from a schema mismatch.  For a known tool the type guard
    rejects it and the answer is the error response with the text [Internal
    Server Error: Invalid arguments for tool "<name>". Expected: <shape>],
    the answer an empty arguments object gets, and not the [Tool arguments
    are required] text that the specification and the repository's test
    call for; for an unknown tool it is the unknown-tool answer.  No client
    function is entered and the state of the process is left as it was. *)
Theorem missing_arguments_are_invalid_arguments NODE_ENV clock network tool w :
  callToolHandler NODE_ENV clock network (mkRequest tool VUndefined) w
  = (Return (mkToolResponse
               [mkTextContent "text"
                  ("Internal Server Error: "
                   ++ (if known_tool tool then
                         "Invalid arguments for tool " ++ Str.dquote ++ tool
                         ++ Str.dquote ++ ". Expected: " ++ expected_shape tool
                       else "Unknown tool requested: " ++ tool))]
               true),
     w)
  /\ callToolHandler NODE_ENV clock network (mkRequest tool VUndefined) w
     = callToolHandler NODE_ENV clock network (mkRequest tool (VObj [])) w.
Proof.
  assert (Hobj : valid_for tool (VObj []) = false).
  { unfold valid_for. repeat (destruct (String.eqb tool _); [reflexivity|]).
    reflexivity. }
  rewrite !callToolHandler_local_rejection;
    cbn [name arguments];
    rewrite ?nothing_valid_for_undefined, ?Hobj, ?andb_false_r;
    try reflexivity.
  split; reflexivity.
Qed.

(** C8: [callToolHandler] always returns a response and never throws.  When
    the body of its [try] block throws a [BraveApiError], the response is
    [isError = true] with the single text [Brave API Error (<status or
    N/A>): <message>] followed by [ - <details>] when the details are a
    non-empty string; when it throws anything else, the single text is
    [Internal Server Error: <message>]; when it returns a text, the response
    holds that text with [isError = false]. *)
Theorem callToolHandler_classifies NODE_ENV clock network request w :
  (exists response w',
     callToolHandler NODE_ENV clock network request w = (Return response, w'))
  /\ (forall message status details w',
        dispatch NODE_ENV clock network (name request) (arguments request) w
        = (Throw (BraveApiError message status details), w') ->
        callToolHandler NODE_ENV clock network request w
        = (Return (mkToolResponse
                     [mkTextContent "text"
                        ("Brave API Error ("
                         ++ match status with
                            | Some n => Num.decimal n
                            | None => "N/A"
                            end
                         ++ "): " ++ message
                         ++ match details with
                            | Some d =>
                                if Str.truthy d then " - " ++ d else ""
                            | None => ""
                            end)]
                     true),
           w'))
  /\ (forall f w',
        dispatch NODE_ENV clock network (name request) (arguments request) w
        = (Throw (NotApi f), w') ->
        callToolHandler NODE_ENV clock network request w
        = (Return (mkToolResponse
                     [mkTextContent "text"
                        ("Internal Server Error: " ++ describe f)]
                     true),
           w'))
  /\ (forall results w',
        dispatch NODE_ENV clock network (name request) (arguments request) w
        = (Return results, w') ->
        callToolHandler NODE_ENV clock network request w
        = (Return (mkToolResponse [mkTextContent "text" results] false), w')).
Proof.
  unfold callToolHandler, try_catch, bind.
  destruct (dispatch NODE_ENV clock network (name request) (arguments request) w)
    as [[results|error] w1].
  - split; [eexists; eexists; reflexivity|].
    split; [intros; discriminate|]. split; [intros; discriminate|].
    intros results' w' H. injection H as <- <-. reflexivity.
  - split; [eexists; eexists; reflexivity|].
    split; [|split; [|intros; discriminate]].
    + intros message status details w' H. injection H as -> <-. reflexivity.
    + intros f w' H. injection H as -> <-. reflexivity.
Qed.

(** A web search answered with status 401 and the body [Bad Key]. *)
Lemma callToolHandler_classifies_witness :
  fst (callToolHandler None (clock_of [10000; 10001]) network_401
         (mkRequest "brave_web_search" (VObj [("query", VStr "weather")]))
         fresh)
  = Return (mkToolResponse
              [mkTextContent "text"
                 "Brave API Error (401): API request failed - Unauthorized: Bad Key..."]
              true).
Proof.
  refine (f_equal fst
            (proj1 (proj2
               (callToolHandler_classifies None (clock_of [10000; 10001])
                  network_401
                  (mkRequest "brave_web_search"
                     (VObj [("query", VStr "weather")]))
                  fresh))
               "API request failed" (Some 401) (Some "Unauthorized: Bad Key...")
               (snd (dispatch None (clock_of [10000; 10001]) network_401
                       "brave_web_search" (VObj [("query", VStr "weather")])
                       fresh))
               _)).
  vm_compute; reflexivity.
Defined.

(** ** The cases of the test suite *)

(** The rate-limit test: under [NODE_ENV=test] with queries that contain
    [req], calls at 10000, 10500 and 11500 are accepted, rejected and
    accepted, and [fetch] is called twice. *)
Example rate_limit_test :
  three_searches (Some "test") (clock_of [10000; 10000; 10500; 11500; 11500])
    network_empty_object fresh
  = (Return [Return (mkBraveWeb None None);
             Throw (BraveApiError "Rate limit exceeded: > 1/second"
                      (Some 429) None);
             Return (mkBraveWeb None None)],
     snd (three_searches (Some "test")
            (clock_of [10000; 10000; 10500; 11500; 11500])
            network_empty_object fresh))
  /\ length (requests
               (snd (three_searches (Some "test")
                       (clock_of [10000; 10000; 10500; 11500; 11500])
                       network_empty_object fresh))) = 2%nat.
Proof. split; vm_compute; reflexivity. Qed.

Example initial_local_search_params :
  searchParams (initialLocalSearchUrl "local query" (Fin 5))
  = [("q", "local query"); ("search_lang", "en");
     ("result_filter", "locations"); ("count", "5")].
Proof. vm_compute. reflexivity. Qed.

Example initial_local_search_count_30 :
  SearchParams.get "count"
    (searchParams (initialLocalSearchUrl "local" (Fin 30))) = Some "20".
Proof. vm_compute. reflexivity. Qed.

Example api_error_text :
  errorMessage (BraveApiError "API Failed" (Some 401)
                  (Some "Unauthorized: Bad Key"))
  = "Brave API Error (401): API Failed - Unauthorized: Bad Key".
Proof. vm_compute. reflexivity. Qed.

Example generic_error_text :
  errorMessage (new_Error "Something else went wrong")
  = "Internal Server Error: Something else went wrong".
Proof. reflexivity. Qed.

Example network_error_has_no_status :
  fst (fetchWebSearch None (clock_of [10000; 10001]) no_network "test"
         (VNum (Fin 10)) (VNum (Fin 0)) fresh)
  = Throw (BraveApiError "Network error calling Brave API: fetch failed"
             None None).
Proof. vm_compute. reflexivity. Qed.

Example unknown_tool_text :
  fst (callToolHandler None (clock_of []) no_network
         (mkRequest "unknown_tool" (VObj [("query", VStr "test")])) fresh)
  = Return (text_response
              "Internal Server Error: Unknown tool requested: unknown_tool"
              true).
Proof. vm_compute. reflexivity. Qed.

Example web_search_defaults :
  calls (snd (callToolHandler None (clock_of [10000; 10001])
                network_empty_object
                (mkRequest "brave_web_search" (VObj [("query", VStr "web test")]))
                fresh))
  = [CallWebSearch "web test" (VNum (Fin 10)) (VNum (Fin 0))].
Proof. vm_compute. reflexivity. Qed.

(** * Further properties *)

(** ** The rate limiter over time *)

Lemma tracker_of_rejected endpoint other w :
  tracker_of other (rejected endpoint w) = tracker_of other w.
Proof.
  unfold tracker_of, rejected. cbn [endpointTrackers].
  destruct (decide (endpoint = other)) as [->|Hne].
  - rewrite lookup_insert_eq. reflexivity.
  - rewrite lookup_insert_ne by exact Hne. reflexivity.
Qed.

Lemma tracker_of_accepted_same clock endpoint w :
  tracker_of endpoint (accepted clock endpoint w)
  = mkTracker (clock (S (ticks w))) (callCount (tracker_of endpoint w) + 1).
Proof.
  unfold tracker_of at 1, accepted. cbn [endpointTrackers].
  rewrite lookup_insert_eq. reflexivity.
Qed.

Lemma tracker_of_accepted_other clock endpoint other w :
  endpoint <> other ->
  tracker_of other (accepted clock endpoint w) = tracker_of other w.
Proof.
  intros Hne. unfold tracker_of, accepted. cbn [endpointTrackers].
  rewrite lookup_insert_ne by exact Hne. reflexivity.
Qed.

(** X1: a call the active limiter rejects costs nothing: [callBraveApi]
    throws the rate-limit error, [fetch] is not called, and the tracker of
    every endpoint, the rejected one included, reads as before, so a caller
    that keeps retrying too early does not push the window forward. *)
Theorem rejected_call_costs_nothing NODE_ENV clock network T url w :
  bypassed NODE_ENV url = false ->
  clock (ticks w) - lastCallTime (tracker_of (getEndpointFromUrl url) w) < 1000 ->
  fst (callBraveApi NODE_ENV clock network T url w) = Throw rate_limit_error
  /\ requests (snd (callBraveApi NODE_ENV clock network T url w)) = requests w
  /\ forall endpoint,
       tracker_of endpoint (snd (callBraveApi NODE_ENV clock network T url w))
       = tracker_of endpoint w.
Proof.
  intros Hb Hearly. rewrite callBraveApi_eq, checkRateLimit_eq by exact Hb.
  destruct (Z.ltb_spec (clock (ticks w)
                        - lastCallTime (tracker_of (getEndpointFromUrl url) w))
              1000) as [_|Hge]; [|lia].
  cbn [fst snd]. split; [reflexivity|]. split; [reflexivity|].
  intros endpoint. apply tracker_of_rejected.
Qed.

Lemma rejected_call_costs_nothing_witness :
  bypassed None (search_url "weather") = false
  /\ fst (callBraveApi None (clock_of [10500]) no_network AsBraveWeb
            (search_url "weather") called_at_10000)
     = Throw rate_limit_error
  /\ tracker_of "web/search"
       (snd (callBraveApi None (clock_of [10500]) no_network AsBraveWeb
               (search_url "weather") called_at_10000))
     = mkTracker 10000 1.
Proof.
  assert (Hb : bypassed None (search_url "weather") = false) by reflexivity.
  assert (Hearly :
    clock_of [10500] (ticks called_at_10000)
    - lastCallTime
        (tracker_of (getEndpointFromUrl (search_url "weather")) called_at_10000)
    < 1000) by (vm_compute; reflexivity).
  split; [exact Hb|].
  pose proof (rejected_call_costs_nothing None (clock_of [10500]) no_network
                AsBraveWeb (search_url "weather") called_at_10000 Hb Hearly)
    as (Hthrow & _ & Hsame).
  split; [exact Hthrow|]. exact (Hsame "web/search").
Defined.

Lemma check_each_length NODE_ENV clock checks w :
  length (fst (check_each NODE_ENV clock checks w)) = length checks.
Proof.
  revert w. induction checks as [|[endpoint url] rest IH]; intros w;
    cbn [check_each]; [reflexivity|].
  destruct (checkRateLimit NODE_ENV clock endpoint url w) as [outcome w1].
  specialize (IH w1). destruct (check_each NODE_ENV clock rest w1) as [ps w2].
  cbn [fst length] in *. now rewrite IH.
Qed.

(** One active check: the count goes up by one exactly when the check is on
    this endpoint and is permitted, and the stored time then goes up by at
    least 1000 under a monotone clock. *)
Lemma checkRateLimit_step NODE_ENV clock endpoint url w watched :
  monotone clock ->
  bypassed NODE_ENV url = false ->
  forall outcome w1,
    checkRateLimit NODE_ENV clock endpoint url w = (outcome, w1) ->
    (ticks w <= ticks w1)%nat
    /\ callCount (tracker_of watched w1)
       = callCount (tracker_of watched w)
         + (if String.eqb endpoint watched
               && match outcome with Return _ => true | Throw _ => false end
            then 1 else 0)
    /\ lastCallTime (tracker_of watched w)
       + 1000 * (if String.eqb endpoint watched
                    && match outcome with Return _ => true | Throw _ => false end
                 then 1 else 0)
       <= lastCallTime (tracker_of watched w1)
    /\ (lastCallTime (tracker_of watched w) <= clock (ticks w) ->
        lastCallTime (tracker_of watched w1) <= clock (ticks w1)).
Proof.
  intros Hmono Hb outcome w1. rewrite checkRateLimit_eq by exact Hb.
  destruct (Z.ltb_spec (clock (ticks w) - lastCallTime (tracker_of endpoint w))
              1000) as [Hlt|Hge]; intros H; injection H as <- <-.
  - rewrite tracker_of_rejected, andb_false_r. cbn [rejected ticks].
    pose proof (Hmono (ticks w) (S (ticks w)) ltac:(lia)).
    repeat split; lia.
  - rewrite andb_true_r. cbn [accepted ticks].
    pose proof (Hmono (ticks w) (S (ticks w)) ltac:(lia)).
    pose proof (Hmono (S (ticks w)) (S (S (ticks w))) ltac:(lia)).
    destruct (String.eqb_spec endpoint watched) as [->|Hne].
    + rewrite tracker_of_accepted_same. cbn [callCount lastCallTime].
      repeat split; lia.
    + rewrite tracker_of_accepted_other by exact Hne.
      repeat split; lia.
Qed.

(** X2: the guarantee of the limiter over any sequence of checks, with the
    limiter active and a clock that never goes back: for every endpoint,
    [callCount] grows by the number of permitted checks on it, and
    [lastCallTime] grows by at least 1000 ms for each of them; so [n]
    permitted calls of one endpoint take at least [1000 * n] ms of stored
    time, whatever is checked on other endpoints in between. *)
Theorem one_call_per_second NODE_ENV clock checks w watched :
  monotone clock ->
  Forall (fun check => bypassed NODE_ENV (snd check) = false) checks ->
  callCount (tracker_of watched (snd (check_each NODE_ENV clock checks w)))
  = callCount (tracker_of watched w)
    + permitted_on watched checks (fst (check_each NODE_ENV clock checks w))
  /\ lastCallTime (tracker_of watched w)
     + 1000 * permitted_on watched checks
                (fst (check_each NODE_ENV clock checks w))
     <= lastCallTime (tracker_of watched (snd (check_each NODE_ENV clock checks w))).
Proof.
  intros Hmono Hall. revert w.
  induction Hall as [|[endpoint url] rest Hb _ IH]; intros w; cbn [check_each].
  - cbn [fst snd permitted_on]. lia.
  - cbn [snd] in Hb.
    destruct (checkRateLimit NODE_ENV clock endpoint url w) as [outcome w1] eqn:Hc.
    destruct (checkRateLimit_step NODE_ENV clock endpoint url w watched Hmono Hb
                outcome w1 Hc) as (_ & Hcount & Hlast & _).
    specialize (IH w1).
    destruct (check_each NODE_ENV clock rest w1) as [ps w2].
    cbn [fst snd permitted_on] in *. lia.
Qed.

Lemma one_call_per_second_witness :
  monotone (fun k => 10000 + 600 * Z.of_nat k)
  /\ fst (check_each None (fun k => 10000 + 600 * Z.of_nat k)
            [("web/search", search_url "a"); ("web/search", search_url "b");
             ("web/search", search_url "c")] fresh)
     = [true; false; true]
  /\ callCount
       (tracker_of "web/search"
          (snd (check_each None (fun k => 10000 + 600 * Z.of_nat k)
                  [("web/search", search_url "a"); ("web/search", search_url "b");
                   ("web/search", search_url "c")] fresh)))
     = 2.
Proof.
  assert (Hmono : monotone (fun k => 10000 + 600 * Z.of_nat k))
    by (intros i j Hij; lia).
  split; [exact Hmono|]. split; [vm_compute; reflexivity|].
  exact (proj1 (one_call_per_second None (fun k => 10000 + 600 * Z.of_nat k)
                  [("web/search", search_url "a"); ("web/search", search_url "b");
                   ("web/search", search_url "c")] fresh "web/search"
                  Hmono
                  ltac:(repeat constructor))).
Defined.

(** X3: budgets are per endpoint: a call of [callBraveApi] for one endpoint,
    however it ends, leaves the tracker of every other endpoint as it was,
    so the next active check on another endpoint is decided by that
    endpoint's own stored time. *)
Theorem budgets_are_per_endpoint NODE_ENV clock network T url w endpoint url' :
  getEndpointFromUrl url <> endpoint ->
  bypassed NODE_ENV url' = false ->
  tracker_of endpoint (snd (callBraveApi NODE_ENV clock network T url w))
  = tracker_of endpoint w
  /\ (fst (checkRateLimit NODE_ENV clock endpoint url'
             (snd (callBraveApi NODE_ENV clock network T url w)))
      = Throw rate_limit_error
      <-> clock (ticks (snd (callBraveApi NODE_ENV clock network T url w)))
          - lastCallTime (tracker_of endpoint w) < 1000).
Proof.
  intros Hne Hb.
  assert (Hsame :
    tracker_of endpoint (snd (callBraveApi NODE_ENV clock network T url w))
    = tracker_of endpoint w).
  { unfold tracker_of.
    rewrite (proj2 (callBraveApi_frame NODE_ENV clock network T url w) endpoint)
      by congruence.
    reflexivity. }
  split; [exact Hsame|].
  rewrite checkRateLimit_eq by exact Hb. rewrite Hsame.
  destruct (Z.ltb_spec
              (clock (ticks (snd (callBraveApi NODE_ENV clock network T url w)))
               - lastCallTime (tracker_of endpoint w)) 1000) as [Hlt|Hge];
    cbn [fst]; split; intros H; try reflexivity; try discriminate; lia.
Qed.

(** A details lookup at 10500 does not touch the budget of [web/search]. *)
Lemma budgets_are_per_endpoint_witness :
  getEndpointFromUrl (poiDetailsUrl [Some "poi1"]) <> "web/search"
  /\ bypassed None (search_url "weather") = false
  /\ tracker_of "web/search"
       (snd (callBraveApi None (clock_of [10500; 10501]) no_network
               AsBravePoiResponse (poiDetailsUrl [Some "poi1"]) called_at_10000))
     = mkTracker 10000 1.
Proof.
  assert (Hne : getEndpointFromUrl (poiDetailsUrl [Some "poi1"]) <> "web/search")
    by discriminate.
  assert (Hb : bypassed None (search_url "weather") = false) by reflexivity.
  split; [exact Hne|]. split; [exact Hb|].
  exact (proj1 (budgets_are_per_endpoint None (clock_of [10500; 10501])
                  no_network AsBravePoiResponse (poiDetailsUrl [Some "poi1"])
                  called_at_10000 "web/search" (search_url "weather") Hne Hb)).
Defined.

(** X4: [_resetRateLimiterForTest] forgets every endpoint: whatever the
    trackers were, the next active check, on any endpoint, is decided
    against [lastCallTime = 0], and when it is permitted the map holds that
    endpoint alone, with [callCount = 1]. *)
Theorem reset_forgets_history NODE_ENV clock endpoint url w :
  bypassed NODE_ENV url = false ->
  fst (_resetRateLimiterForTest w) = Return tt
  /\ endpointTrackers (snd (_resetRateLimiterForTest w)) = ∅
  /\ (fst (checkRateLimit NODE_ENV clock endpoint url
             (snd (_resetRateLimiterForTest w))) = Return tt
      <-> 1000 <= clock (ticks w))
  /\ (1000 <= clock (ticks w) ->
      endpointTrackers
        (snd (checkRateLimit NODE_ENV clock endpoint url
                (snd (_resetRateLimiterForTest w))))
      = {[ endpoint := mkTracker (clock (S (ticks w))) 1 ]}).
Proof.
  intros Hb. split; [reflexivity|]. split; [reflexivity|].
  rewrite checkRateLimit_eq by exact Hb.
  unfold _resetRateLimiterForTest, put_trackers, tracker_of.
  cbn [snd endpointTrackers ticks]. rewrite lookup_empty.
  cbn [default from_option id lastCallTime callCount].
  destruct (Z.ltb_spec (clock (ticks w) - 0) 1000) as [Hlt|Hge]; cbn [fst snd].
  - split; [split; intros H; [discriminate|lia]|lia].
  - split; [split; intros H; [lia|reflexivity]|].
    intros _. unfold accepted, tracker_of. cbn [endpointTrackers ticks].
    rewrite lookup_empty. cbn [default from_option id callCount].
    rewrite insert_empty. reflexivity.
Qed.

Lemma reset_forgets_history_witness :
  bypassed None (search_url "weather") = false
  /\ fst (checkRateLimit None (clock_of [10500; 10501]) "web/search"
            (search_url "weather")
            (snd (_resetRateLimiterForTest called_at_10000)))
     = Return tt.
Proof.
  assert (Hb : bypassed None (search_url "weather") = false) by reflexivity.
  split; [exact Hb|].
  apply (proj1 (proj2 (proj2 (reset_forgets_history None (clock_of [10500; 10501])
                                "web/search" (search_url "weather")
                                called_at_10000 Hb)))).
  vm_compute. discriminate.
Defined.

(** ** Endpoint identifiers *)

Lemma split_slash_free (s : string) :
  slash_free s = true -> Str.split "/" s = [s].
Proof.
  induction s as [|c s IH]; cbn [slash_free Str.split]; [reflexivity|].
  intros H. apply andb_prop in H as [Hc Hs]. apply negb_true_iff in Hc.
  rewrite Hc, (IH Hs). reflexivity.
Qed.

Lemma split_nonempty (s : string) : Str.split "/" s <> [].
Proof.
  induction s as [|c s IH]; cbn [Str.split]; [discriminate|].
  destruct (Ascii.eqb c "/"); [discriminate|].
  destruct (Str.split "/" s); [contradiction|discriminate].
Qed.

Lemma split_at_slash (s t : string) :
  Str.split "/" (s ++ String "/" t)
  = (Str.split "/" s ++ Str.split "/" t)%list.
Proof.
  induction s as [|c s IH].
  - reflexivity.
  - change (String c s ++ String "/" t) with (String c (s ++ String "/" t)).
    cbn [Str.split]. rewrite IH.
    destruct (Ascii.eqb c "/"); [reflexivity|].
    pose proof (split_nonempty s) as Hne.
    destruct (Str.split "/" s) as [|x xs]; [contradiction|reflexivity].
Qed.

(** X5: the endpoint identifier is the last two segments of the path: for
    a path that ends in [/a/b], with no [/] in [a] or [b], it is [a/b],
    whatever comes before and whatever the query holds. *)
Theorem endpoint_is_last_two_segments url before a b :
  pathname url = before ++ String "/" (a ++ String "/" b) ->
  slash_free a = true ->
  slash_free b = true ->
  getEndpointFromUrl url = a ++ String "/" b.
Proof.
  intros Hpath Ha Hb. unfold getEndpointFromUrl. rewrite Hpath.
  rewrite !split_at_slash, (split_slash_free a Ha), (split_slash_free b Hb).
  unfold Str.slice_last.
  change ([a] ++ [b])%list with [a; b].
  rewrite length_app. cbn [length].
  replace (length (Str.split "/" before) + 2 - 2)%nat
    with (length (Str.split "/" before) + 0)%nat by lia.
  rewrite skipn_app, Nat.add_0_r, skipn_all.
  replace (length (Str.split "/" before) - length (Str.split "/" before))%nat
    with 0%nat by lia.
  reflexivity.
Qed.

Lemma endpoint_is_last_two_segments_witness :
  getEndpointFromUrl (url_set "q" "pizza" (new_URL "/res/v1/local/pois"))
  = "local/pois".
Proof.
  exact (endpoint_is_last_two_segments
           (url_set "q" "pizza" (new_URL "/res/v1/local/pois"))
           "/res/v1" "local" "pois" eq_refl eq_refl eq_refl).
Defined.

(** X6: the URLs of the image, video and news searches hold [q], then
    [count] and [offset] under the rules of the web search, and never a
    [result_filter]; their endpoint identifiers are [images/search],
    [videos/search] and [news/search], so none of them shares the budget of
    [web/search] or of one another. *)
Theorem extended_search_urls query count offset :
  (forall path,
     searchParams (extendedSearchUrl path query count offset)
     = ([("q", query)]
        ++ number_param "count" (fun c => Num.min c (Fin 20)) count
        ++ number_param "offset"
             (fun o => Num.max (Fin 0) (Num.min o (Fin 9))) offset)%list)
  /\ getEndpointFromUrl (imageSearchUrl query count offset) = "images/search"
  /\ getEndpointFromUrl (videoSearchUrl query count offset) = "videos/search"
  /\ getEndpointFromUrl (newsSearchUrl query count offset) = "news/search".
Proof.
  split.
  - intros path. unfold extendedSearchUrl, valid_number, number_param.
    destruct count as [| | |[| | |c]| | |], offset as [| | |[| | |o]| | |];
      reflexivity.
  - unfold imageSearchUrl, videoSearchUrl, newsSearchUrl, extendedSearchUrl.
    destruct (valid_number count), (valid_number offset);
      repeat split; reflexivity.
Qed.

(** ** The type guards *)

(** X7: what [isBraveWebSearchArgs] accepts: exactly the objects (not
    [null], not arrays, not primitives) whose [query] is a string and whose
    [count] and [offset] are each missing, [undefined] or a number.  Nothing
    else is looked at: other keys are allowed, the query may be empty, and
    the numbers are not held to the ranges the schema declares. *)
Theorem web_search_args_accepted args :
  Tools.isBraveWebSearchArgs args = true
  <-> exists fields q,
        args = VObj fields
        /\ Tools.lookup_field "query" fields = Some (VStr q)
        /\ absent_or_number "count" fields = true
        /\ absent_or_number "offset" fields = true.
Proof.
  unfold Tools.isBraveWebSearchArgs, absent_or_number. split.
  - destruct args as [| | | | | |fields]; cbn; try discriminate.
    unfold Tools.field, Tools.has_key.
    destruct (Tools.lookup_field "query" fields) as [[| | | |q| |]|] eqn:Hq;
      cbn; try discriminate.
    intros H. exists fields, q. split; [reflexivity|]. split; [exact Hq|].
    destruct (Tools.lookup_field "count" fields) as [[| | | | | |]|];
      cbn in H; try discriminate;
      destruct (Tools.lookup_field "offset" fields) as [[| | | | | |]|];
      cbn in H; try discriminate; split; reflexivity.
  - intros (fields & q & -> & Hq & Hc & Ho). cbn.
    unfold Tools.field, Tools.has_key. rewrite Hq. cbn.
    destruct (Tools.lookup_field "count" fields) as [[| | | | | |]|];
      try discriminate Hc;
      destruct (Tools.lookup_field "offset" fields) as [[| | | | | |]|];
      try discriminate Ho; reflexivity.
Qed.

(** X8: the guards nest: arguments valid for the web search are valid for
    the local search (which does not look at [offset]), and the two POI
    guards accept the same arguments. *)
Theorem guards_nest args :
  (Tools.isBraveWebSearchArgs args = true ->
   Tools.isBraveLocalSearchArgs args = true)
  /\ Tools.isBravePoiDetailsArgs args = Tools.isBravePoiDescriptionsArgs args.
Proof.
  split; [|reflexivity].
  unfold Tools.isBraveWebSearchArgs, Tools.isBraveLocalSearchArgs.
  intros H. apply andb_prop in H as [H _]. exact H.
Qed.

Lemma guards_nest_witness :
  Tools.isBraveLocalSearchArgs
    (VObj [("query", VStr "pizza"); ("offset", VNum (Fin 3))]) = true.
Proof.
  exact (proj1 (guards_nest
                  (VObj [("query", VStr "pizza"); ("offset", VNum (Fin 3))]))
           eq_refl).
Defined.

Lemma all_strings (items : list JsValue) :
  forallb (fun id => String.eqb (Tools.typeof id) "string") items = true
  <-> exists ids, items = map VStr ids.
Proof.
  induction items as [|item rest IH]; cbn [forallb].
  - split; [exists []; reflexivity|reflexivity].
  - split.
    + intros H. apply andb_prop in H as [Hitem Hrest].
      apply IH in Hrest as [ids ->].
      destruct item as [| | | |s| |]; try discriminate Hitem.
      exists (s :: ids). reflexivity.
    + intros [[|s ids] H]; [discriminate H|].
      injection H as -> ->. cbn. apply IH. exists ids. reflexivity.
Qed.

(** X9: what the POI guards accept, and what the handler then reads:
    exactly the objects whose [ids] is an array of strings (the empty array
    included), and the ids the handler passes on are those strings, in
    order. *)
Theorem poi_args_accepted args :
  Tools.isBravePoiDetailsArgs args = true
  <-> exists fields ids,
        args = VObj fields
        /\ Tools.lookup_field "ids" fields = Some (VArr (map VStr ids))
        /\ Tools.strings_of (Tools.field "ids" args) = ids.
Proof.
  unfold Tools.isBravePoiDetailsArgs. split.
  - destruct args as [| | | | | |fields]; cbn; try discriminate.
    unfold Tools.field, Tools.has_key.
    destruct (Tools.lookup_field "ids" fields) as [[| | | | |items|]|] eqn:Hi;
      cbn; try discriminate.
    intros H. apply all_strings in H as [ids ->].
    exists fields, ids. split; [reflexivity|]. split; [exact Hi|].
    unfold Tools.strings_of. cbn [Tools.items_of].
    rewrite map_map. cbn [Tools.string_of]. apply map_id.
  - intros (fields & ids & -> & Hids & _). cbn.
    unfold Tools.field, Tools.has_key. rewrite Hids. cbn.
    apply all_strings. exists ids. reflexivity.
Qed.

(** ** Orchestration beyond the fallback *)

Lemma checkRateLimit_permits NODE_ENV clock endpoint url w :
  permits NODE_ENV clock endpoint url w = true ->
  checkRateLimit NODE_ENV clock endpoint url w
  = (Return tt, passed NODE_ENV clock endpoint url w).
Proof.
  unfold permits, passed. destruct (bypassed NODE_ENV url) eqn:Hb; cbn [orb].
  - intros _. apply checkRateLimit_bypassed. exact Hb.
  - intros H. rewrite checkRateLimit_eq by exact Hb.
    destruct (Z.ltb_spec (clock (ticks w) - lastCallTime (tracker_of endpoint w))
                1000) as [Hlt|Hge]; [|reflexivity].
    apply Z.leb_le in H. lia.
Qed.

Lemma passed_frame NODE_ENV clock endpoint url w :
  requests (passed NODE_ENV clock endpoint url w) = requests w
  /\ calls (passed NODE_ENV clock endpoint url w) = calls w.
Proof. unfold passed. destruct (bypassed NODE_ENV url); split; reflexivity. Qed.


(** X11: a failure of the initial location search is not recovered from:
    [performLocalSearch] throws what the search threw, and no details,
    descriptions or web search call is made. *)
Theorem local_search_initial_failure NODE_ENV clock network query count w e w1 :
  fetchInitialLocalSearch NODE_ENV clock network query count w = (Throw e, w1) ->
  performLocalSearch NODE_ENV clock network query count w = (Throw e, w1)
  /\ calls w1 = (calls w ++ [CallInitialLocalSearch query count])%list.
Proof.
  intros Hinit. split.
  - unfold performLocalSearch, bind at 1. rewrite Hinit. reflexivity.
  - pose proof (fetchInitialLocalSearch_calls NODE_ENV clock network query
                  count w) as Hc.
    rewrite Hinit in Hc. exact Hc.
Qed.

Lemma local_search_initial_failure_witness :
  fst (performLocalSearch None (clock_of [10000; 10001]) no_network "pizza"
         (Fin 5) fresh)
  = Throw (BraveApiError "Network error calling Brave API: fetch failed"
             None None).
Proof.
  refine (f_equal fst
            (proj1 (local_search_initial_failure None (clock_of [10000; 10001])
                      no_network "pizza" (Fin 5) fresh
                      (BraveApiError
                         "Network error calling Brave API: fetch failed"
                         None None)
                      (snd (fetchInitialLocalSearch None
                              (clock_of [10000; 10001]) no_network "pizza"
                              (Fin 5) fresh))
                      _))).
  vm_compute; reflexivity.
Defined.

(** X12: the two POI tools have no fallback: with at least one id, a
    failure of the fetch is thrown on as it is, and the only client function
    entered is that fetch. *)
Theorem poi_tools_do_not_fall_back NODE_ENV clock network id ids w e w1 :
  (fetchPoiDetails NODE_ENV clock network (map Some (id :: ids)) w = (Throw e, w1) ->
   performPoiDetails NODE_ENV clock network (id :: ids) w = (Throw e, w1)
   /\ calls w1 = (calls w ++ [CallPoiDetails (map Some (id :: ids))])%list)
  /\ (fetchPoiDescriptions NODE_ENV clock network (map Some (id :: ids)) w
      = (Throw e, w1) ->
      performPoiDescriptions NODE_ENV clock network (id :: ids) w = (Throw e, w1)
      /\ calls w1 = (calls w ++ [CallPoiDescriptions (map Some (id :: ids))])%list).
Proof.
  split; intros H.
  - split.
    + unfold performPoiDetails, bind. cbn [length Nat.eqb]. rewrite H.
      reflexivity.
    + pose proof (proj1 (fetchPoiDetails_frame NODE_ENV clock network
                           (map Some (id :: ids)) w)) as Hc.
      rewrite H in Hc. exact Hc.
  - split.
    + unfold performPoiDescriptions, bind. cbn [length Nat.eqb]. rewrite H.
      reflexivity.
    + pose proof (proj1 (fetchPoiDescriptions_frame NODE_ENV clock network
                           (map Some (id :: ids)) w)) as Hc.
      rewrite H in Hc. exact Hc.
Qed.

Lemma poi_tools_do_not_fall_back_witness :
  fst (performPoiDetails None (clock_of [10000; 10001]) no_network ["poi1"]
         fresh)
  = Throw (BraveApiError "Network error calling Brave API: fetch failed"
             None None).
Proof.
  refine (f_equal fst
            (proj1 (proj1 (poi_tools_do_not_fall_back None
                             (clock_of [10000; 10001]) no_network "poi1" []
                             fresh
                             (BraveApiError
                                "Network error calling Brave API: fetch failed"
                                None None)
                             (snd (fetchPoiDetails None
                                     (clock_of [10000; 10001]) no_network
                                     [Some "poi1"] fresh)))
                      _))).
  vm_compute; reflexivity.
Defined.

(** X13: an empty id list is answered without any work: for every
    arguments object whose [ids] is the empty array, [brave_poi_details] and
    [brave_poi_descriptions] answer with [isError = false] and the text [No
    IDs provided to fetch details.] or [No IDs provided to fetch
    descriptions.], and the state of the process is left as it was: no
    client function is entered. *)
Theorem empty_ids_are_answered_locally NODE_ENV clock network fields w :
  Tools.lookup_field "ids" fields = Some (VArr []) ->
  callToolHandler NODE_ENV clock network
    (mkRequest "brave_poi_details" (VObj fields)) w
  = (Return (mkToolResponse
               [mkTextContent "text" "No IDs provided to fetch details."]
               false),
     w)
  /\ callToolHandler NODE_ENV clock network
       (mkRequest "brave_poi_descriptions" (VObj fields)) w
     = (Return (mkToolResponse
                  [mkTextContent "text" "No IDs provided to fetch descriptions."]
                  false),
        w).
Proof.
  intros Hids.
  unfold callToolHandler, dispatch, try_catch, bind.
  cbn [name arguments String.eqb Ascii.eqb Bool.eqb].
  unfold Tools.isBravePoiDetailsArgs, Tools.isBravePoiDescriptionsArgs,
    Tools.field, Tools.has_key, Tools.strings_of.
  cbn [Tools.typeof Tools.is_null]. rewrite Hids. split; reflexivity.
Qed.

Lemma empty_ids_are_answered_locally_witness :
  fst (callToolHandler None (clock_of []) no_network
         (mkRequest "brave_poi_details" (VObj [("ids", VArr [])])) fresh)
  = Return (mkToolResponse
              [mkTextContent "text" "No IDs provided to fetch details."] false).
Proof.
  exact (f_equal fst
           (proj1 (empty_ids_are_answered_locally None (clock_of []) no_network
                     [("ids", VArr [])] fresh eq_refl))).
Defined.


(** ** The client's errors, and the handler end to end *)

(** X14: every failure of [callBraveApi] is a [BraveApiError]: a rejection
    by the limiter (status 429), a response that is not a success (its
    status), or a transport or body failure (no status); nothing foreign
    gets out of the client. *)
Theorem client_errors_are_api_errors NODE_ENV clock network T url w e :
  fst (callBraveApi NODE_ENV clock network T url w) = Throw e ->
  exists message status details, e = BraveApiError message status details.
Proof.
  rewrite callBraveApi_eq.
  destruct (bypassed NODE_ENV url) eqn:Hb.
  - rewrite checkRateLimit_bypassed by exact Hb. cbn [fst]. unfold exchange.
    destruct (network _ url) as [r|f]; [|intros H; injection H as <-;
                                          unfold network_error; eauto].
    destruct (ok r).
    + destruct (json r T); intros H; [discriminate|].
      injection H as <-. unfold network_error; eauto.
    + destruct (text r); intros H; injection H as <-;
        unfold network_error, http_error; eauto.
  - rewrite checkRateLimit_eq by exact Hb.
    destruct (_ <? 1000); cbn [fst].
    + intros H. injection H as <-. unfold rate_limit_error; eauto.
    + unfold exchange.
      destruct (network _ url) as [r|f]; [|intros H; injection H as <-;
                                            unfold network_error; eauto].
      destruct (ok r).
      * destruct (json r T); intros H; [discriminate|].
        injection H as <-. unfold network_error; eauto.
      * destruct (text r); intros H; injection H as <-;
          unfold network_error, http_error; eauto.
Qed.

Lemma client_errors_are_api_errors_witness :
  exists message status details,
    BraveApiError "Network error calling Brave API: fetch failed" None None
    = BraveApiError message status details.
Proof.
  exact (client_errors_are_api_errors None (clock_of [10000; 10001]) no_network
           AsBraveWeb (search_url "weather") fresh
           (BraveApiError "Network error calling Brave API: fetch failed"
              None None)
           ltac:(vm_compute; reflexivity)).
Defined.

Lemma bypassed_webSearchUrl NODE_ENV query count offset :
  bypassed NODE_ENV (webSearchUrl query count offset)
  = bypassed NODE_ENV (search_url query).
Proof.
  unfold bypassed, query_of. rewrite get_q_webSearchUrl. reflexivity.
Qed.

Lemma callToolHandler_eq NODE_ENV clock network request w :
  callToolHandler NODE_ENV clock network request w
  = match dispatch NODE_ENV clock network (name request) (arguments request) w
    with
    | (Return results, w') => (Return (text_response results false), w')
    | (Throw e, w') => (Return (text_response (errorMessage e) true), w')
    end.
Proof.
  unfold callToolHandler, try_catch, bind.
  destruct (dispatch NODE_ENV clock network (name request) (arguments request) w)
    as [[results|e] w']; reflexivity.
Qed.

Lemma performWebSearch_eq NODE_ENV clock network query count offset w :
  performWebSearch NODE_ENV clock network query (Some count) (Some offset) w
  = match callBraveApi NODE_ENV clock network AsBraveWeb
            (webSearchUrl query (VNum count) (VNum offset))
            (noted (CallWebSearch query (VNum count) (VNum offset)) w)
    with
    | (Return data, w') => (Return (formatWebResults data), w')
    | (Throw e, w') => (Throw e, w')
    end.
Proof. reflexivity. Qed.

Lemma dispatch_web_search NODE_ENV clock network fields q :
  Tools.lookup_field "query" fields = Some (VStr q) ->
  absent_or_number "count" fields = true ->
  absent_or_number "offset" fields = true ->
  dispatch NODE_ENV clock network "brave_web_search" (VObj fields)
  = performWebSearch NODE_ENV clock network q
      (Some (Tools.number_or (Fin 10) (Tools.field "count" (VObj fields))))
      (Some (Tools.number_or (Fin 0) (Tools.field "offset" (VObj fields)))).
Proof.
  intros Hq Hc Ho. unfold dispatch.
  cbn [String.eqb Ascii.eqb Bool.eqb].
  unfold Tools.isBraveWebSearchArgs, Tools.field, Tools.has_key,
    absent_or_number in *.
  cbn [Tools.typeof Tools.is_null]. rewrite Hq.
  destruct (Tools.lookup_field "count" fields) as [[| | | | | |]|];
    try discriminate Hc;
    destruct (Tools.lookup_field "offset" fields) as [[| | | | | |]|];
    try discriminate Ho; reflexivity.
Qed.

(** X15: the rejection of the limiter as the caller of [brave_web_search]
    sees it: with valid arguments, the limiter active and less than 1000 ms
    since the stored time of [web/search], the answer is [isError = true]
    with the text [Brave API Error (429): Rate limit exceeded: > 1/second],
    and [fetch] is not called. *)
Theorem web_search_rate_limited_response NODE_ENV clock network fields q w :
  Tools.lookup_field "query" fields = Some (VStr q) ->
  absent_or_number "count" fields = true ->
  absent_or_number "offset" fields = true ->
  bypassed NODE_ENV (search_url q) = false ->
  clock (ticks w) - lastCallTime (tracker_of "web/search" w) < 1000 ->
  fst (callToolHandler NODE_ENV clock network
         (mkRequest "brave_web_search" (VObj fields)) w)
  = Return (mkToolResponse
              [mkTextContent "text"
                 "Brave API Error (429): Rate limit exceeded: > 1/second"]
              true)
  /\ requests (snd (callToolHandler NODE_ENV clock network
                      (mkRequest "brave_web_search" (VObj fields)) w))
     = requests w.
Proof.
  intros Hq Hc Ho Hb Hearly.
  rewrite callToolHandler_eq. cbn [name arguments].
  rewrite (dispatch_web_search _ _ _ _ _ Hq Hc Ho), performWebSearch_eq.
  rewrite callBraveApi_eq, endpoint_webSearchUrl.
  rewrite checkRateLimit_eq by (rewrite bypassed_webSearchUrl; exact Hb).
  unfold tracker_of in *. cbn [noted endpointTrackers ticks].
  destruct (Z.ltb_spec
              (clock (ticks w)
               - lastCallTime
                   (default (mkTracker 0 0) (endpointTrackers w !! "web/search")))
              1000) as [_|Hge]; [|lia].
  split; reflexivity.
Qed.

Lemma web_search_rate_limited_response_witness :
  bypassed None (search_url "weather") = false
  /\ fst (callToolHandler None (clock_of [10500]) no_network
            (mkRequest "brave_web_search" (VObj [("query", VStr "weather")]))
            called_at_10000)
     = Return (mkToolResponse
                 [mkTextContent "text"
                    "Brave API Error (429): Rate limit exceeded: > 1/second"]
                 true).
Proof.
  assert (Hb : bypassed None (search_url "weather") = false) by reflexivity.
  split; [exact Hb|].
  exact (proj1 (web_search_rate_limited_response None (clock_of [10500])
                  no_network [("query", VStr "weather")] "weather"
                  called_at_10000 eq_refl eq_refl eq_refl Hb
                  ltac:(vm_compute; reflexivity))).
Defined.



(** ** Texts for empty results *)

(** X17: the two formatters say that nothing was found exactly when there
    is nothing: [formatWebResults] returns [No web results found.] exactly
    when the body has no web results (no [web], no [results], or an empty
    list), and [formatLocalResults] returns [No local results found.]
    exactly when the POI list is empty, whatever the descriptions are. *)
Theorem no_results_texts :
  (forall data,
     formatWebResults data = "No web results found."
     <-> web_results_of data = [])
  /\ (forall poisData descData,
        formatLocalResults poisData descData = "No local results found."
        <-> results poisData = []).
Proof.
  split.
  - intros data. unfold formatWebResults, web_results_of.
    destruct (web data) as [[[|r rs]|]|]; try (split; reflexivity).
    split; [|discriminate].
    cbn [map length Nat.eqb]. destruct rs as [|r' rs]; cbn [map Str.join];
      intros H; vm_compute in H; discriminate H.
  - intros poisData descData. unfold formatLocalResults.
    destruct (results poisData) as [|poi pois]; [split; reflexivity|].
    split; [|discriminate].
    cbn [map length Nat.eqb]. destruct pois as [|poi' pois];
      cbn [map Str.join]; unfold formatPoi;
      intros H; vm_compute in H; discriminate H.
Qed.

(** X18: [performPoiDescriptions] with at least one id, when the fetch
    returns: the text is [No descriptions found for the provided IDs.]
    exactly when the returned map is empty; the state is the one the fetch
    left. *)
Theorem poi_descriptions_text NODE_ENV clock network id ids w descriptionsData
  w1 :
  fetchPoiDescriptions NODE_ENV clock network (map Some (id :: ids)) w
  = (Return descriptionsData, w1) ->
  snd (performPoiDescriptions NODE_ENV clock network (id :: ids) w) = w1
  /\ (fst (performPoiDescriptions NODE_ENV clock network (id :: ids) w)
      = Return "No descriptions found for the provided IDs."
      <-> descriptions descriptionsData = []).
Proof.
  intros H. unfold performPoiDescriptions, bind. cbn [length Nat.eqb].
  rewrite H.
  destruct (descriptions descriptionsData) as [|[k v] rest];
    cbn [length Nat.eqb ret fst snd].
  - split; [reflexivity|split; reflexivity].
  - split; [reflexivity|]. split; [|discriminate].
    destruct rest as [|[k' v'] rest]; cbn [map Str.join fst snd];
      intros E; injection E as E; vm_compute in E; discriminate E.
Qed.

Lemma poi_descriptions_text_witness :
  fst (performPoiDescriptions None (clock_of [10000; 10001])
         network_no_locations ["poi1"] fresh)
  = Return "No descriptions found for the provided IDs.".
Proof.
  apply (proj2 (proj2 (poi_descriptions_text None (clock_of [10000; 10001])
                         network_no_locations "poi1" [] fresh
                         (mkBraveDescription [])
                         (snd (fetchPoiDescriptions None
                                 (clock_of [10000; 10001]) network_no_locations
                                 [Some "poi1"] fresh))
                         ltac:(vm_compute; reflexivity)))).
  reflexivity.
Defined.

(** ** The tools listed and the tools dispatched *)

(** X19: the list of tools and the [switch] of the handler agree: a name
    that is not the name of a listed tool is refused as unknown, whatever
    the arguments; a listed tool is dispatched to its guard (called without
    arguments it gets the invalid-arguments answer that names it); and an
    arguments object that lacks a key the tool's schema requires is refused
    by the guard, with the state of the process left as it was. *)
Theorem listed_tools_are_dispatched NODE_ENV clock network w :
  fst (listToolsHandler w) = Return ALL_TOOLS
  /\ (forall tool args,
        ~ In tool (map tool_name ALL_TOOLS) ->
        callToolHandler NODE_ENV clock network (mkRequest tool args) w
        = (Return (text_response
                     ("Internal Server Error: Unknown tool requested: " ++ tool)
                     true),
           w))
  /\ (forall tool,
        In tool ALL_TOOLS ->
        callToolHandler NODE_ENV clock network
          (mkRequest (tool_name tool) VUndefined) w
        = (Return (text_response
                     ("Internal Server Error: Invalid arguments for tool "
                      ++ Str.dquote ++ tool_name tool ++ Str.dquote
                      ++ ". Expected: " ++ expected_shape (tool_name tool))
                     true),
           w))
  /\ (forall tool key fields,
        In tool ALL_TOOLS ->
        In key (schema_required tool) ->
        Tools.lookup_field key fields = None ->
        callToolHandler NODE_ENV clock network
          (mkRequest (tool_name tool) (VObj fields)) w
        = (Return (text_response
                     ("Internal Server Error: Invalid arguments for tool "
                      ++ Str.dquote ++ tool_name tool ++ Str.dquote
                      ++ ". Expected: " ++ expected_shape (tool_name tool))
                     true),
           w)).
Proof.
  split; [reflexivity|]. split; [|split].
  - intros tool args Hnot.
    rewrite callToolHandler_local_rejection.
    + unfold local_rejection. cbn [name].
      replace (known_tool tool) with false; [reflexivity|].
      symmetry. unfold known_tool.
      repeat match goal with
             | |- context [String.eqb tool ?n] =>
                 destruct (String.eqb_spec tool n) as [->|_];
                 [exfalso; apply Hnot; cbn; tauto|]
             end.
      reflexivity.
    + cbn [name arguments]. unfold known_tool.
      repeat match goal with
             | |- context [String.eqb tool ?n] =>
                 destruct (String.eqb_spec tool n) as [->|_];
                 [exfalso; apply Hnot; cbn; tauto|]
             end.
      reflexivity.
  - intros tool Hin.
    rewrite callToolHandler_local_rejection
      by (cbn [name arguments]; rewrite nothing_valid_for_undefined;
          apply andb_false_r).
    cbn [name]. unfold local_rejection.
    cbn in Hin. destruct Hin as [<-|[<-|[<-|[<-|[]]]]]; reflexivity.
  - intros tool key fields Hin Hkey Hnone.
    assert (Hinvalid : valid_for (tool_name tool) (VObj fields) = false).
    { cbn in Hin. destruct Hin as [<-|[<-|[<-|[<-|[]]]]];
        cbn in Hkey; destruct Hkey as [<-|[]];
        cbn [tool_name WEB_SEARCH_TOOL LOCAL_SEARCH_TOOL BRAVE_POI_DETAILS_TOOL
               BRAVE_POI_DESCRIPTIONS_TOOL];
        unfold valid_for; cbn [String.eqb Ascii.eqb Bool.eqb];
        unfold Tools.isBraveWebSearchArgs, Tools.isBraveLocalSearchArgs,
          Tools.isBravePoiDetailsArgs, Tools.isBravePoiDescriptionsArgs,
          Tools.has_key;
        rewrite Hnone; cbn [Tools.typeof Tools.is_null String.eqb Ascii.eqb
                              Bool.eqb negb andb]; reflexivity. }
    rewrite callToolHandler_local_rejection
      by (cbn [name arguments]; rewrite Hinvalid; apply andb_false_r).
    cbn [name]. unfold local_rejection.
    cbn in Hin. destruct Hin as [<-|[<-|[<-|[<-|[]]]]]; reflexivity.
Qed.

Lemma listed_tools_are_dispatched_witness :
  In LOCAL_SEARCH_TOOL ALL_TOOLS
  /\ In "query" (schema_required LOCAL_SEARCH_TOOL)
  /\ fst (callToolHandler None (clock_of []) no_network
            (mkRequest "brave_local_search" (VObj [("count", VNum (Fin 5))]))
            fresh)
     = Return (text_response
                 ("Internal Server Error: Invalid arguments for tool "
                  ++ Str.dquote ++ "brave_local_search" ++ Str.dquote
                  ++ ". Expected: { query: string, count?: number }")
                 true).
Proof.
  assert (Hin : In LOCAL_SEARCH_TOOL ALL_TOOLS) by (cbn; tauto).
  assert (Hkey : In "query" (schema_required LOCAL_SEARCH_TOOL)) by (cbn; tauto).
  split; [exact Hin|]. split; [exact Hkey|].
  exact (f_equal fst
           (proj2 (proj2 (proj2 (listed_tools_are_dispatched None (clock_of [])
                                   no_network fresh)))
              LOCAL_SEARCH_TOOL "query" [("count", VNum (Fin 5))] Hin Hkey
              eq_refl)).
Defined.

(** ** Defaults *)

Lemma callToolHandler_world NODE_ENV clock network request w :
  snd (callToolHandler NODE_ENV clock network request w)
  = snd (dispatch NODE_ENV clock network (name request) (arguments request) w).
Proof.
  rewrite callToolHandler_eq.
  destruct (dispatch NODE_ENV clock network (name request) (arguments request) w)
    as [[results|e] w']; reflexivity.
Qed.

Lemma dispatch_local_search NODE_ENV clock network fields q :
  Tools.lookup_field "query" fields = Some (VStr q) ->
  absent_or_number "count" fields = true ->
  dispatch NODE_ENV clock network "brave_local_search" (VObj fields)
  = performLocalSearch NODE_ENV clock network q
      (Tools.number_or (Fin 5) (Tools.field "count" (VObj fields))).
Proof.
  intros Hq Hc. unfold dispatch.
  cbn [String.eqb Ascii.eqb Bool.eqb].
  unfold Tools.isBraveLocalSearchArgs, Tools.field, Tools.has_key,
    absent_or_number in *.
  cbn [Tools.typeof Tools.is_null]. rewrite Hq.
  destruct (Tools.lookup_field "count" fields) as [[| | | | | |]|];
    try discriminate Hc; reflexivity.
Qed.

Lemma enrichment_calls NODE_ENV clock network ids w :
  exists later,
    calls (snd (enrichment NODE_ENV clock network ids w))
    = (calls w ++ later)%list.
Proof.
  unfold enrichment, bind.
  pose proof (proj1 (fetchPoiDetails_frame NODE_ENV clock network
                       (map Some ids) w)) as Hd.
  destruct (fetchPoiDetails NODE_ENV clock network (map Some ids) w)
    as [[poisData|e] w1]; cbn [snd] in *; [|eauto].
  pose proof (proj1 (fetchPoiDescriptions_frame NODE_ENV clock network
                       (map Some ids) w1)) as Hs.
  destruct (fetchPoiDescriptions NODE_ENV clock network (map Some ids) w1)
    as [[descriptionsData|e] w2]; cbn [snd ret] in *;
    rewrite Hs, Hd, <- app_assoc; eauto.
Qed.

Lemma performLocalSearch_calls NODE_ENV clock network query count w :
  exists later,
    calls (snd (performLocalSearch NODE_ENV clock network query count w))
    = (calls w ++ CallInitialLocalSearch query count :: later)%list.
Proof.
  unfold performLocalSearch, bind at 1.
  pose proof (fetchInitialLocalSearch_calls NODE_ENV clock network query
                count w) as Hc.
  destruct (fetchInitialLocalSearch NODE_ENV clock network query count w)
    as [[webData|e] w1]; cbn [snd] in Hc.
  - destruct (locationIds_of webData) as [|id ids]; cbn [length Nat.eqb].
    + rewrite performWebSearch_calls, Hc, <- app_assoc. cbn [app]. eauto.
    + unfold try_catch.
      change (bind (fetchPoiDetails NODE_ENV clock network (map Some (id :: ids)))
                (fun poisData =>
                   bind (fetchPoiDescriptions NODE_ENV clock network
                           (map Some (id :: ids)))
                     (fun descriptionsData =>
                        ret (formatLocalResults poisData descriptionsData))))
        with (enrichment NODE_ENV clock network (id :: ids)).
      destruct (enrichment_calls NODE_ENV clock network (id :: ids) w1)
        as [later Hl].
      destruct (enrichment NODE_ENV clock network (id :: ids) w1)
        as [[text|e] w2]; cbn [snd] in *.
      * rewrite Hl, Hc, <- app_assoc. cbn [app]. eauto.
      * rewrite performWebSearch_calls, Hl, Hc, <- !app_assoc. cbn [app]. eauto.
  - cbn [snd]. rewrite Hc. eauto.
Qed.

(** X20: the defaults the handler applies are the defaults the schemas
    declare, whatever the network does: [brave_web_search] called with a
    query and no [count] and no [offset] enters [fetchWebSearch] once, with
    the declared 10 and 0, and nothing else; [brave_local_search] called
    with a query and no [count] starts with [fetchInitialLocalSearch] at the
    declared 5. *)
Theorem handler_applies_declared_defaults NODE_ENV clock network fields q w :
  Tools.lookup_field "query" fields = Some (VStr q) ->
  Tools.lookup_field "count" fields = None ->
  (Tools.lookup_field "offset" fields = None ->
   exists count offset,
     declared_default WEB_SEARCH_TOOL "count" = Some count
     /\ declared_default WEB_SEARCH_TOOL "offset" = Some offset
     /\ calls (snd (callToolHandler NODE_ENV clock network
                      (mkRequest "brave_web_search" (VObj fields)) w))
        = (calls w ++ [CallWebSearch q (VNum count) (VNum offset)])%list)
  /\ exists count later,
       declared_default LOCAL_SEARCH_TOOL "count" = Some count
       /\ calls (snd (callToolHandler NODE_ENV clock network
                        (mkRequest "brave_local_search" (VObj fields)) w))
          = (calls w ++ CallInitialLocalSearch q count :: later)%list.
Proof.
  intros Hq Hc.
  assert (Hcount : absent_or_number "count" fields = true)
    by (unfold absent_or_number; rewrite Hc; reflexivity).
  split.
  - intros Ho.
    assert (Hoffset : absent_or_number "offset" fields = true)
      by (unfold absent_or_number; rewrite Ho; reflexivity).
    exists (Fin 10), (Fin 0). split; [reflexivity|]. split; [reflexivity|].
    rewrite callToolHandler_world. cbn [name arguments].
    rewrite (dispatch_web_search _ _ _ _ _ Hq Hcount Hoffset).
    rewrite performWebSearch_calls. unfold Tools.field. rewrite Hc, Ho.
    reflexivity.
  - destruct (performLocalSearch_calls NODE_ENV clock network q (Fin 5) w)
      as [later Hl].
    exists (Fin 5), later. split; [reflexivity|].
    rewrite callToolHandler_world. cbn [name arguments].
    rewrite (dispatch_local_search _ _ _ _ _ Hq Hcount).
    unfold Tools.field. rewrite Hc. exact Hl.
Qed.

Lemma handler_applies_declared_defaults_witness :
  exists count later,
    declared_default LOCAL_SEARCH_TOOL "count" = Some count
    /\ calls (snd (callToolHandler None patient_clock network_local_ok
                     (mkRequest "brave_local_search"
                        (VObj [("query", VStr "local test")])) fresh))
       = (calls fresh ++ CallInitialLocalSearch "local test" count :: later)%list.
Proof.
  exact (proj2 (handler_applies_declared_defaults None patient_clock
                  network_local_ok [("query", VStr "local test")] "local test"
                  fresh eq_refl eq_refl)).
Defined.

(** ** What the local search sends *)

(** X21: the URL of the initial location search holds, in this order, [q],
    [search_lang=en], [result_filter=locations] and [count]; unlike the web
    search it sets [count] for every number: [min(count, 20)] for a finite
    one, and the text [NaN] for [NaN], which the guards let through. *)
Theorem initial_local_search_url query count :
  searchParams (initialLocalSearchUrl query count)
  = [("q", query); ("search_lang", "en"); ("result_filter", "locations");
     ("count", Num.toString (Num.min count (Fin 20)))]
  /\ (forall z,
        SearchParams.get "count"
          (searchParams (initialLocalSearchUrl query (Fin z)))
        = Some (Num.decimal (Z.min z 20)))
  /\ SearchParams.get "count" (searchParams (initialLocalSearchUrl query NaN))
     = Some "NaN"
  /\ Tools.isBraveLocalSearchArgs
       (VObj [("query", VStr query); ("count", VNum NaN)]) = true.
Proof. repeat split; reflexivity. Qed.

Lemma filter_Boolean_strings (ids : list string) :
  filter_Boolean (map Some ids) = List.filter Str.truthy ids.
Proof.
  unfold filter_Boolean. induction ids as [|id ids IH];
    cbn [map filter_map List.filter]; [reflexivity|].
  destruct (Str.truthy id); rewrite IH; reflexivity.
Qed.

Lemma locationIds_of_In webData id :
  In id (locationIds_of webData)
  <-> exists rs r,
        locations webData = Some (Some rs) /\ In r rs /\ loc_id r = Some id.
Proof.
  unfold locationIds_of.
  destruct (locations webData) as [[rs|]|].
  - split.
    + intros H. exists rs.
      induction rs as [|r rs IH]; cbn [filter_map] in H; [contradiction|].
      destruct (loc_id r) as [id'|] eqn:Hr.
      * destruct H as [<-|H].
        -- exists r. split; [reflexivity|]. split; [left; reflexivity|exact Hr].
        -- destruct (IH H) as (r' & _ & Hin & Hid).
           exists r'. split; [reflexivity|]. split; [right; exact Hin|exact Hid].
      * destruct (IH H) as (r' & _ & Hin & Hid).
        exists r'. split; [reflexivity|]. split; [right; exact Hin|exact Hid].
    + intros (rs' & r & Hrs & Hin & Hid). injection Hrs as <-.
      induction rs as [|r' rs IH]; [contradiction|]. cbn [filter_map].
      destruct Hin as [->|Hin].
      * rewrite Hid. left. reflexivity.
      * destruct (loc_id r'); [right|]; apply IH; exact Hin.
  - split; [contradiction|]. intros (rs & r & H & _). discriminate H.
  - split; [contradiction|]. intros (rs & r & H & _). discriminate H.
Qed.

Lemma filter_truthy_all_empty (ids : list string) :
  Forall (fun id => id = "") ids -> List.filter Str.truthy ids = [].
Proof.
  intros Hall. induction Hall as [|id rest -> _ IH]; [reflexivity|].
  cbn [List.filter Str.truthy]. exact IH.
Qed.

Lemma callBraveApi_requests_grow NODE_ENV clock network T url w :
  exists later,
    requests (snd (callBraveApi NODE_ENV clock network T url w))
    = (requests w ++ later)%list.
Proof.
  destruct (callBraveApi_requests NODE_ENV clock network T url w) as [H|H];
    rewrite H; [exists []; rewrite app_nil_r; reflexivity|eauto].
Qed.

Lemma fetchPoiDescriptions_requests_grow NODE_ENV clock network ids w :
  exists later,
    requests (snd (fetchPoiDescriptions NODE_ENV clock network ids w))
    = (requests w ++ later)%list.
Proof.
  unfold fetchPoiDescriptions, bind, entered.
  destruct (length ids =? 0)%nat.
  - exists []. cbn. rewrite app_nil_r. reflexivity.
  - apply (callBraveApi_requests_grow NODE_ENV clock network AsBraveDescription
             (poiDescriptionsUrl ids) (noted (CallPoiDescriptions ids) w)).
Qed.

Lemma performWebSearch_requests_grow NODE_ENV clock network query count offset w :
  exists later,
    requests (snd (performWebSearch NODE_ENV clock network query count offset w))
    = (requests w ++ later)%list.
Proof.
  unfold performWebSearch, bind at 1, fetchWebSearch, bind, entered.
  destruct (callBraveApi_requests_grow NODE_ENV clock network AsBraveWeb
              (webSearchUrl query (VNum (default (Fin 10) count))
                 (VNum (default (Fin 0) offset)))
              (noted (CallWebSearch query (VNum (default (Fin 10) count))
                        (VNum (default (Fin 0) offset))) w)) as [later H].
  unfold noted in H.
  destruct (callBraveApi NODE_ENV clock network AsBraveWeb _ _)
    as [[data|e] w']; cbn [snd ret] in *; eauto.
Qed.

(** What [performLocalSearch] does once its initial search has returned
    with at least one id: the details are fetched from the state the search
    left, then either the descriptions, or the fallback web search. *)
Lemma performLocalSearch_with_ids NODE_ENV clock network query count w webData
  w1 :
  fetchInitialLocalSearch NODE_ENV clock network query count w
  = (Return webData, w1) ->
  locationIds_of webData <> [] ->
  performLocalSearch NODE_ENV clock network query count w
  = match fetchPoiDetails NODE_ENV clock network
            (map Some (locationIds_of webData)) w1 with
    | (Return poisData, w2) =>
        match fetchPoiDescriptions NODE_ENV clock network
                (map Some (locationIds_of webData)) w2 with
        | (Return descriptionsData, w3) =>
            (Return (formatLocalResults poisData descriptionsData), w3)
        | (Throw _, w3) =>
            performWebSearch NODE_ENV clock network query (Some count) None w3
        end
    | (Throw _, w2) =>
        performWebSearch NODE_ENV clock network query (Some count) None w2
    end.
Proof.
  intros Hinit Hne. unfold performLocalSearch, bind at 1. rewrite Hinit.
  destruct (locationIds_of webData) as [|id ids]; [congruence|].
  cbn [length Nat.eqb]. unfold try_catch, bind.
  destruct (fetchPoiDetails NODE_ENV clock network (map Some (id :: ids)) w1)
    as [[poisData|e] w2]; [|reflexivity].
  destruct (fetchPoiDescriptions NODE_ENV clock network (map Some (id :: ids)) w2)
    as [[descriptionsData|e] w3]; reflexivity.
Qed.

(** X22: which ids the local search uses and which it sends.  Once the
    initial search has returned with at least one id that is not null, the
    empty string included, [performLocalSearch] does not fall back at once:
    the next client function it enters is [fetchPoiDetails], with those
    ids.  When the limiter lets that call through, the request that follows
    the initial one goes to [local/pois] and carries one [ids] pair for each
    id that is not the empty string, in order; when the details come back
    and the limiter lets the descriptions call through, the next request
    goes to [local/descriptions] with the same pairs.  So when every id is
    the empty string both requests go out with no [ids] parameter at all. *)
Theorem local_search_ids NODE_ENV clock network query count w webData w1 :
  fetchInitialLocalSearch NODE_ENV clock network query count w
  = (Return webData, w1) ->
  locationIds_of webData <> [] ->
  (exists later,
     calls (snd (performLocalSearch NODE_ENV clock network query count w))
     = (calls w
        ++ CallInitialLocalSearch query count
           :: CallPoiDetails (map Some (locationIds_of webData)) :: later)%list)
  /\ (permits NODE_ENV clock "local/pois"
        (poiDetailsUrl (map Some (locationIds_of webData))) w1 = true ->
      exists later,
        requests (snd (performLocalSearch NODE_ENV clock network query count w))
        = (requests w1
           ++ ids_url "/res/v1/local/pois"
                (List.filter Str.truthy (locationIds_of webData))
              :: later)%list)
  /\ (forall poisData w2,
        fetchPoiDetails NODE_ENV clock network
          (map Some (locationIds_of webData)) w1 = (Return poisData, w2) ->
        permits NODE_ENV clock "local/descriptions"
          (poiDescriptionsUrl (map Some (locationIds_of webData))) w2 = true ->
        exists later,
          requests (snd (performLocalSearch NODE_ENV clock network query count w))
          = (requests w2
             ++ ids_url "/res/v1/local/descriptions"
                  (List.filter Str.truthy (locationIds_of webData))
                :: later)%list)
  /\ (Forall (fun id => id = "") (locationIds_of webData) ->
      List.filter Str.truthy (locationIds_of webData) = []).
Proof.
  intros Hinit Hne.
  rewrite (performLocalSearch_with_ids _ _ _ _ _ _ _ _ Hinit Hne).
  pose proof (fetchInitialLocalSearch_calls NODE_ENV clock network query
                count w) as Hc1.
  rewrite Hinit in Hc1. cbn [snd] in Hc1.
  set (ids := locationIds_of webData) in *.
  assert (Hlen : (length (map Some ids) =? 0)%nat = false).
  { destruct ids; [congruence|reflexivity]. }
  split; [|split; [|split]].
  - pose proof (proj1 (fetchPoiDetails_frame NODE_ENV clock network
                         (map Some ids) w1)) as Hc2.
    destruct (fetchPoiDetails NODE_ENV clock network (map Some ids) w1)
      as [[poisData|e] w2]; cbn [snd] in Hc2.
    + pose proof (proj1 (fetchPoiDescriptions_frame NODE_ENV clock network
                           (map Some ids) w2)) as Hc3.
      destruct (fetchPoiDescriptions NODE_ENV clock network (map Some ids) w2)
        as [[descriptionsData|e] w3]; cbn [snd] in *.
      * rewrite Hc3, Hc2, Hc1, <- !app_assoc. cbn [app]. eauto.
      * rewrite performWebSearch_calls, Hc3, Hc2, Hc1, <- !app_assoc.
        cbn [app]. eauto.
    + rewrite performWebSearch_calls, Hc2, Hc1, <- !app_assoc. cbn [app]. eauto.
  - intros Hp.
    assert (Hd :
      fetchPoiDetails NODE_ENV clock network (map Some ids) w1
      = (exchange network AsBravePoiResponse (poiDetailsUrl (map Some ids))
           (length (requests w1)),
         sent (poiDetailsUrl (map Some ids))
           (passed NODE_ENV clock "local/pois" (poiDetailsUrl (map Some ids))
              (noted (CallPoiDetails (map Some ids)) w1)))).
    { unfold fetchPoiDetails, bind, entered. rewrite Hlen.
      change (mkWorld (endpointTrackers w1) (ticks w1) (requests w1)
                (calls w1 ++ [CallPoiDetails (map Some ids)]))
        with (noted (CallPoiDetails (map Some ids)) w1).
      rewrite (callBraveApi_passed NODE_ENV clock network AsBravePoiResponse
                 (poiDetailsUrl (map Some ids))
                 (noted (CallPoiDetails (map Some ids)) w1)
                 (passed NODE_ENV clock "local/pois"
                    (poiDetailsUrl (map Some ids))
                    (noted (CallPoiDetails (map Some ids)) w1))).
      - rewrite (proj1 (passed_frame _ _ _ _ _)). reflexivity.
      - rewrite endpoint_poiDetailsUrl. apply checkRateLimit_permits.
        exact Hp. }
    rewrite Hd.
    assert (Hsent :
      requests (sent (poiDetailsUrl (map Some ids))
                  (passed NODE_ENV clock "local/pois"
                     (poiDetailsUrl (map Some ids))
                     (noted (CallPoiDetails (map Some ids)) w1)))
      = (requests w1
         ++ [ids_url "/res/v1/local/pois" (List.filter Str.truthy ids)])%list).
    { cbn [sent requests]. rewrite (proj1 (passed_frame _ _ _ _ _)).
      rewrite poiDetailsUrl_eq, filter_Boolean_strings. reflexivity. }
    set (w2 := sent _ _) in *.
    destruct (exchange network AsBravePoiResponse _ _) as [poisData|e].
    + destruct (fetchPoiDescriptions_requests_grow NODE_ENV clock network
                  (map Some ids) w2) as [later Hl].
      destruct (fetchPoiDescriptions NODE_ENV clock network (map Some ids) w2)
        as [[descriptionsData|e] w3]; cbn [snd] in *.
      * rewrite Hl, Hsent, <- app_assoc. cbn [app]. eauto.
      * destruct (performWebSearch_requests_grow NODE_ENV clock network query
                    (Some count) None w3) as [later' Hl'].
        rewrite Hl', Hl, Hsent, <- !app_assoc. cbn [app]. eauto.
    + destruct (performWebSearch_requests_grow NODE_ENV clock network query
                  (Some count) None w2) as [later Hl].
      rewrite Hl, Hsent, <- app_assoc. cbn [app]. eauto.
  - intros poisData w2 Hd Hp. rewrite Hd.
    assert (Hs :
      fetchPoiDescriptions NODE_ENV clock network (map Some ids) w2
      = (exchange network AsBraveDescription
           (poiDescriptionsUrl (map Some ids)) (length (requests w2)),
         sent (poiDescriptionsUrl (map Some ids))
           (passed NODE_ENV clock "local/descriptions"
              (poiDescriptionsUrl (map Some ids))
              (noted (CallPoiDescriptions (map Some ids)) w2)))).
    { unfold fetchPoiDescriptions, bind, entered. rewrite Hlen.
      change (mkWorld (endpointTrackers w2) (ticks w2) (requests w2)
                (calls w2 ++ [CallPoiDescriptions (map Some ids)]))
        with (noted (CallPoiDescriptions (map Some ids)) w2).
      rewrite (callBraveApi_passed NODE_ENV clock network AsBraveDescription
                 (poiDescriptionsUrl (map Some ids))
                 (noted (CallPoiDescriptions (map Some ids)) w2)
                 (passed NODE_ENV clock "local/descriptions"
                    (poiDescriptionsUrl (map Some ids))
                    (noted (CallPoiDescriptions (map Some ids)) w2))).
      - rewrite (proj1 (passed_frame _ _ _ _ _)). reflexivity.
      - rewrite endpoint_poiDescriptionsUrl. apply checkRateLimit_permits.
        exact Hp. }
    rewrite Hs.
    assert (Hsent :
      requests (sent (poiDescriptionsUrl (map Some ids))
                  (passed NODE_ENV clock "local/descriptions"
                     (poiDescriptionsUrl (map Some ids))
                     (noted (CallPoiDescriptions (map Some ids)) w2)))
      = (requests w2
         ++ [ids_url "/res/v1/local/descriptions"
               (List.filter Str.truthy ids)])%list).
    { cbn [sent requests]. rewrite (proj1 (passed_frame _ _ _ _ _)).
      rewrite poiDescriptionsUrl_eq, filter_Boolean_strings. reflexivity. }
    set (w3 := sent _ _) in *.
    destruct (exchange network AsBraveDescription _ _) as [descriptionsData|e].
    + cbn [snd]. rewrite Hsent. exists []. reflexivity.
    + destruct (performWebSearch_requests_grow NODE_ENV clock network query
                  (Some count) None w3) as [later Hl].
      rewrite Hl, Hsent, <- app_assoc. cbn [app]. eauto.
  - apply filter_truthy_all_empty.
Qed.

(** One location result with an empty id: no fallback at once; the
    details and the descriptions requests carry no [ids]. *)
Lemma local_search_ids_witness :
  locationIds_of nameless_location <> []
  /\ permits None patient_clock "local/pois"
       (poiDetailsUrl (map Some (locationIds_of nameless_location)))
       (snd (fetchInitialLocalSearch None patient_clock network_nameless
               "pizza" (Fin 5) fresh)) = true
  /\ (exists later,
        requests (snd (performLocalSearch None patient_clock network_nameless
                         "pizza" (Fin 5) fresh))
        = (requests (snd (fetchInitialLocalSearch None patient_clock
                            network_nameless "pizza" (Fin 5) fresh))
           ++ mkURL api_origin "/res/v1/local/pois" [] :: later)%list)
  /\ map pathname
       (requests (snd (performLocalSearch None patient_clock network_nameless
                         "pizza" (Fin 5) fresh)))
     = ["/res/v1/web/search"; "/res/v1/local/pois";
        "/res/v1/local/descriptions"]
  /\ map searchParams
       (tl (requests (snd (performLocalSearch None patient_clock
                             network_nameless "pizza" (Fin 5) fresh))))
     = [[]; []].
Proof.
  assert (Hne : locationIds_of nameless_location <> []) by discriminate.
  assert (Hp :
    permits None patient_clock "local/pois"
      (poiDetailsUrl (map Some (locationIds_of nameless_location)))
      (snd (fetchInitialLocalSearch None patient_clock network_nameless
              "pizza" (Fin 5) fresh)) = true)
    by (vm_compute; reflexivity).
  split; [exact Hne|]. split; [exact Hp|].
  split;
    [exact (proj1 (proj2 (local_search_ids None patient_clock network_nameless
                            "pizza" (Fin 5) fresh nameless_location
                            (snd (fetchInitialLocalSearch None patient_clock
                                    network_nameless "pizza" (Fin 5) fresh))
                            ltac:(vm_compute; reflexivity) Hne))
              Hp)|].
  split; vm_compute; reflexivity.
Defined.
